(** * LineBalancer AI: the bottleneck analyzer and the what-if simulator

    A shallow embedding of [analyzeBottlenecks] and [runSimulation] of the
    agent reasoning engine (lib/agent), with the properties of the design
    specification stated on it, followed by the prediction engine
    ([generatePredictions]) and the query agent
    ([parseNaturalLanguageQuery], [parseDuration]) of the same module.

    JavaScript numbers are IEEE 754 binary64 values; they are modelled by
    Rocq's primitive floats, which are the same format with a single NaN.
    Arithmetic ([+], [-], [*], [/], [Math.sqrt]) is the primitive operation;
    [Math.min], [Math.max], [Math.floor], [Math.round] and [parseInt] are
    written out below after ECMA-262. *)

From Stdlib Require Import ZArith List String Ascii Floats Lia Permutation.
From stdpp Require Import base strings gmap.
Import ListNotations.

Local Open Scope string_scope.
Local Open Scope float_scope.

(** ** The JavaScript number layer *)

Module JS.

Definition number := float.

(** The integer [z] as a number (rounded to nearest even when it needs
    more than 53 bits). *)
Definition of_Z (z : Z) : number :=
  SF2Prim (binary_normalize prec emax z 0 false).

Definition of_nat (n : nat) : number := of_Z (Z.of_nat n).

(** ToBoolean on a number: NaN, +0 and -0 are falsy. *)
Definition truthy (x : number) : bool := negb (is_nan x || is_zero x).

(** ToBoolean on [number | null]. *)
Definition truthy_opt (o : option number) : bool :=
  match o with
  | Some x => truthy x
  | None => false
  end.

(** [o || d] for [o : number | null]. *)
Definition or_default (o : option number) (d : number) : number :=
  match o with
  | Some x => if truthy x then x else d
  | None => d
  end.

(** [Math.min(x, y)]: NaN if either is NaN, and -0 is below +0. *)
Definition Math_min (x y : number) : number :=
  if is_nan x || is_nan y then nan
  else if x <? y then x
  else if y <? x then y
  else if is_zero x && get_sign y then y
  else x.

(** [Math.max(x, y)]: NaN if either is NaN, and +0 is above -0. *)
Definition Math_max (x y : number) : number :=
  if is_nan x || is_nan y then nan
  else if x <? y then y
  else if y <? x then x
  else if is_zero x && get_sign x then y
  else x.

(** [Math.max(...xs)] and [Math.min(...xs)]: the variadic forms start from
    -Infinity and +Infinity. *)
Definition Math_max_list (xs : list number) : number :=
  fold_left Math_max xs neg_infinity.

Definition Math_min_list (xs : list number) : number :=
  fold_left Math_min xs infinity.

(** [Math.floor]: a finite number with a negative exponent is
    [m * 2^e]; its floor is an integer division. Zeros, infinities, NaN
    and numbers that are already integers are returned unchanged. *)
Definition Math_floor (x : number) : number :=
  match Prim2SF x with
  | S754_finite s m e =>
      if (0 <=? e)%Z then x
      else
        let sm := if s then Z.neg m else Z.pos m in
        of_Z (sm / 2 ^ (- e))
  | _ => x
  end.

(** [Math.round]: the nearest integer, a tie going towards +Infinity;
    a result of zero keeps the sign of the argument. *)
Definition Math_round (x : number) : number :=
  match Prim2SF x with
  | S754_finite s m e =>
      if (0 <=? e)%Z then x
      else
        let sm := if s then Z.neg m else Z.pos m in
        let z := ((2 * sm + 2 ^ (- e)) / 2 ^ (1 - e))%Z in
        if (z =? 0)%Z then (if s then neg_zero else zero) else of_Z z
  | _ => x
  end.

Definition Math_sqrt (x : number) : number := sqrt x.

(** *** Strings *)

(** [s.startsWith(p)] *)
Fixpoint starts_with (p s : string) : bool :=
  match p, s with
  | EmptyString, _ => true
  | String a p', String b s' => Ascii.eqb a b && starts_with p' s'
  | String _ _, EmptyString => false
  end.

Fixpoint drop (n : nat) (s : string) : string :=
  match n, s with
  | O, _ => s
  | S n', String _ s' => drop n' s'
  | S _, EmptyString => EmptyString
  end.

(** [s.replace(pat, by)] with a string pattern: only the first
    occurrence is replaced. *)
Fixpoint replace (pat by_ s : string) : string :=
  if starts_with pat s then by_ ++ drop (String.length pat) s
  else
    match s with
    | EmptyString => EmptyString
    | String c s' => String c (replace pat by_ s')
    end.

(** White space skipped by [parseInt]: the StrWhiteSpaceChar code units
    below 256, which are tab, line feed, vertical tab, form feed, carriage
    return, space and the no-break space (160). *)
Definition is_space (c : ascii) : bool :=
  let n := nat_of_ascii c in
  (n =? 32)%nat || ((9 <=? n)%nat && (n <=? 13)%nat) || (n =? 160)%nat.

Fixpoint trim_start (s : string) : string :=
  match s with
  | String c s' => if is_space c then trim_start s' else s
  | EmptyString => EmptyString
  end.

(** The value of [c] as a digit in [radix], if it is one. *)
Definition digit_of (radix : Z) (c : ascii) : option Z :=
  let n := Z.of_nat (nat_of_ascii c) in
  let d :=
    if (48 <=? n)%Z && (n <=? 57)%Z then Some (n - 48)%Z
    else if (97 <=? n)%Z && (n <=? 122)%Z then Some (n - 87)%Z
    else if (65 <=? n)%Z && (n <=? 90)%Z then Some (n - 55)%Z
    else None in
  match d with
  | Some v => if (v <? radix)%Z then Some v else None
  | None => None
  end.

(** The longest prefix of digits of [s], read in [radix]; [None] when
    [s] does not start with a digit. *)
Fixpoint digits (radix : Z) (acc : option Z) (s : string) : option Z :=
  match s with
  | String c s' =>
      match digit_of radix c with
      | Some v =>
          digits radix
            (Some (match acc with Some a => a * radix + v | None => v end)%Z) s'
      | None => acc
      end
  | EmptyString => acc
  end.

(** The numeric prefix that [parseInt(s)] reads (no radix argument):
    leading white space, a sign, an optional [0x] for radix 16, then
    digits. The result is the sign and the magnitude. *)
Definition numeric_prefix (s : string) : option (bool * Z) :=
  let s1 := trim_start s in
  let '(neg, s2) :=
    match s1 with
    | String "-" r => (true, r)
    | String "+" r => (false, r)
    | _ => (false, s1)
    end in
  let '(radix, s3) :=
    if starts_with "0x" s2 || starts_with "0X" s2 then (16%Z, drop 2 s2)
    else (10%Z, s2) in
  match digits radix None s3 with
  | Some z => Some (neg, z)
  | None => None
  end.

(** [parseInt(s)]: NaN when there is no numeric prefix. *)
Definition parseInt (s : string) : number :=
  match numeric_prefix s with
  | Some (neg, z) =>
      if neg then (if (z =? 0)%Z then neg_zero else of_Z (- z)) else of_Z z
  | None => nan
  end.

(** [xs.sort(cmp)]: the sort is stable, and a comparator result that is
    not greater than zero leaves the two elements in their order. Where the
    comparator is not a consistent ordering (a NaN result among others that
    are not) the language leaves the order to the engine: of the result of
    such a sort only its being a permutation of [xs] is relied on. *)
Section Sort.
Context {A : Type} (cmp : A -> A -> number).

Fixpoint insert_sorted (x : A) (l : list A) : list A :=
  match l with
  | [] => [x]
  | y :: l' =>
      if 0 <? cmp x y then y :: insert_sorted x l' else x :: y :: l'
  end.

Definition sort (l : list A) : list A := fold_right insert_sorted [] l.
End Sort.

End JS.

Import JS.

(** A value or a [TypeError]. *)
Inductive Completion (A : Type) : Type :=
  | Returns (a : A)
  | ThrowsTypeError.
Arguments Returns {A} a.
Arguments ThrowsTypeError {A}.

Set Warnings "-inexact-float".

(** ** Data model *)

(** [interface StationData] *)
Module StationData.
Record t := mk {
  station_id : string;
  station_name : string;
  target_cycle_time : number;
  avg_cycle_time : option number;
  stddev_cycle_time : option number;
  sample_count : number;
  total_downtime : option number;
  variance_percent : option number;
}.
End StationData.

(** [interface ShiftData] *)
Module ShiftData.
Record t := mk {
  shift : string;
  station_id : string;
  avg_cycle_time : number;
  sample_count : number;
}.
End ShiftData.

Inductive Severity := critical | high | medium | low.

Inductive CauseType :=
  | cause_operator | cause_equipment | cause_material | cause_process
  | cause_shift.

(** [interface RootCause]. The [description] and [evidence] fields are
    display texts built from numbers by template literals; they do not
    feed any later computation and are not part of the model. *)
Module RootCause.
Record t := mk {
  type : CauseType;
  confidence : number;
}.
End RootCause.

Inductive RecommendationType :=
  | rec_add_operator | rec_training | rec_equipment | rec_rebalance
  | rec_maintenance.

Inductive Cost := cost_low | cost_medium | cost_high.

(** [interface Recommendation] *)
Module Recommendation.
Record t := mk {
  id : string;
  type : RecommendationType;
  description : string;
  expectedImprovement : number;
  implementationCost : Cost;
  timeToImplement : string;
  priority : number;
}.
End Recommendation.

(** [interface BottleneckAnalysis] *)
Module BottleneckAnalysis.
Record t := mk {
  stationId : string;
  stationName : string;
  severity : Severity;
  avgCycleTime : number;
  targetCycleTime : number;
  variancePercent : number;
  frequency : number;
  impactScore : number;
  rootCauses : list RootCause.t;
  recommendations : list Recommendation.t;
}.
End BottleneckAnalysis.

(** ** Bottleneck detection agent *)

Definition getSeverity (variancePercent : number) : Severity :=
  if 20 <? variancePercent then critical
  else if 10 <? variancePercent then high
  else if 5 <? variancePercent then medium
  else low.

(** [stddev / avg * 100] when [avg] is truthy, else 0: the expression
    shared by [calculateImpactScore] and [analyzeRootCauses]. *)
Definition coefficientOfVariation (station : StationData.t) : number :=
  let stddev := or_default (StationData.stddev_cycle_time station) 0 in
  match StationData.avg_cycle_time station with
  | Some avg => if truthy avg then (stddev / avg) * 100 else 0
  | None => 0
  end.

(** The four sub-scores of [calculateImpactScore], under the names of its
    local constants. *)
Definition varianceScore (station : StationData.t) : number :=
  Math_min 40 (or_default (StationData.variance_percent station) 0 * 2).

Definition consistencyScore (station : StationData.t) : number :=
  Math_min 20 (coefficientOfVariation station).

Definition stationNumber (station : StationData.t) : number :=
  parseInt (replace "ST" "" (StationData.station_id station)).

Definition positionScore (station : StationData.t) : number :=
  Math_max 0 (20 - stationNumber station * 2).

Definition totalDowntime (allStations : list StationData.t) : number :=
  fold_left (fun sum s => sum + or_default (StationData.total_downtime s) 0)
    allStations 0.

Definition downtimeScore (station : StationData.t)
    (allStations : list StationData.t) : number :=
  if 0 <? totalDowntime allStations
  then (or_default (StationData.total_downtime station) 0
        / totalDowntime allStations) * 20
  else 0.

Definition calculateImpactScore (station : StationData.t)
    (allStations : list StationData.t) : number :=
  Math_round (varianceScore station + consistencyScore station
              + positionScore station + downtimeScore station allStations).

(** Setting the own property [k] of an object used as a map: an existing
    key keeps its place, a new key is appended. *)
Fixpoint obj_set (acc : list (string * number)) (k : string) (v : number)
    : list (string * number) :=
  match acc with
  | [] => [(k, v)]
  | (k', v') :: acc' =>
      if String.eqb k' k then (k, v) :: acc' else (k', v') :: obj_set acc' k v
  end.

(** [acc[k] = v] with a number [v] on an object literal: the key
    [__proto__] is the accessor inherited from [Object.prototype], whose
    setter ignores a number, so that the assignment stores nothing; every
    other key becomes an own property. *)
Definition obj_assign (acc : list (string * number)) (k : string) (v : number)
    : list (string * number) :=
  if String.eqb k "__proto__" then acc else obj_set acc k v.

(** The [avgByShift] object built by the [reduce] of [analyzeRootCauses]
    over the shift rows of one station. *)
Definition avgByShiftOf (stationShifts : list ShiftData.t)
    : list (string * number) :=
  fold_left
    (fun acc s => obj_assign acc (ShiftData.shift s) (ShiftData.avg_cycle_time s))
    stationShifts [].

(** The shift block of [analyzeRootCauses] reads [worstShift[0]], where
    [worstShift] is the first element of the sorted
    [Object.entries(avgByShift)]: with no entry it is [undefined] and the
    read raises a TypeError. This happens when the block is entered, every
    shift row of the station is labelled [__proto__] and
    [shiftVariancePercent], here [(-Infinity - Infinity) / target * 100],
    exceeds 10. *)
Definition shiftCauseThrows (station : StationData.t)
    (shiftData : list ShiftData.t) : bool :=
  let stationShifts :=
    List.filter
      (fun s => String.eqb (ShiftData.station_id s)
                  (StationData.station_id station)) shiftData in
  if (1 <? length stationShifts)%nat then
    let avgByShift := avgByShiftOf stationShifts in
    let values := List.map snd avgByShift in
    let shiftVariance := Math_max_list values - Math_min_list values in
    let shiftVariancePercent :=
      (shiftVariance / StationData.target_cycle_time station) * 100 in
    if 10 <? shiftVariancePercent then
      match avgByShift with
      | [] => true
      | _ :: _ => false
      end
    else false
  else false.

(** The causes the shift block pushes when it completes (see
    [shiftCauseThrows] for when it does not). *)
Definition shiftCause (station : StationData.t) (shiftData : list ShiftData.t)
    : list RootCause.t :=
  let stationShifts :=
    List.filter
      (fun s => String.eqb (ShiftData.station_id s)
                  (StationData.station_id station)) shiftData in
  if (1 <? length stationShifts)%nat then
    let avgByShift := avgByShiftOf stationShifts in
    let values := List.map snd avgByShift in
    let shiftVariance := Math_max_list values - Math_min_list values in
    let shiftVariancePercent :=
      (shiftVariance / StationData.target_cycle_time station) * 100 in
    if 10 <? shiftVariancePercent then
      [RootCause.mk cause_shift (Math_min 0.9 (shiftVariancePercent / 20))]
    else []
  else [].

Definition analyzeRootCauses (station : StationData.t)
    (shiftData : list ShiftData.t) : list RootCause.t :=
  let cv := coefficientOfVariation station in
  shiftCause station shiftData
  ++ (if 15 <? cv
      then [RootCause.mk cause_operator (Math_min 0.85 (cv / 25))] else [])
  ++ (if (15 <? or_default (StationData.variance_percent station) 0)
         && (cv <? 10)
      then [RootCause.mk cause_equipment 0.75] else [])
  ++ (if 60 <? or_default (StationData.total_downtime station) 0
      then [RootCause.mk cause_equipment 0.8] else []).

(** The body of the [for (const cause of rootCauses)] loop of
    [generateRecommendations]: the state is the list built so far and the
    running [priority] counter ([priority++] uses the value, then adds 1). *)
Definition recommend (station : StationData.t)
    (st : list Recommendation.t * number) (cause : RootCause.t)
    : list Recommendation.t * number :=
  let '(recommendations, priority) := st in
  let sid := StationData.station_id station in
  let sname := StationData.station_name station in
  let confidence := RootCause.confidence cause in
  match RootCause.type cause with
  | cause_shift =>
      ((recommendations ++
       [Recommendation.mk ("rec-" ++ sid ++ "-shift")%string rec_training
          ("Provide additional training for underperforming shift at "
           ++ sname)%string
          (Math_round (confidence * 15)) cost_low "1-2 weeks" priority])%list,
       priority + 1)
  | cause_operator =>
      ((recommendations ++
       [Recommendation.mk ("rec-" ++ sid ++ "-operator")%string rec_add_operator
          ("Add operator to " ++ sname
           ++ " to reduce workload and improve consistency")%string
          (Math_round (confidence * 20)) cost_medium "2-4 weeks" priority;
        Recommendation.mk ("rec-" ++ sid ++ "-training")%string rec_training
          ("Standardize work procedures at " ++ sname)%string
          (Math_round (confidence * 10)) cost_low "1 week" (priority + 1)])%list,
       priority + 1 + 1)
  | cause_equipment =>
      ((recommendations ++
       [Recommendation.mk ("rec-" ++ sid ++ "-equipment")%string rec_equipment
          ("Upgrade or maintain equipment at " ++ sname)%string
          (Math_round (confidence * 25)) cost_high "4-8 weeks" priority;
        Recommendation.mk ("rec-" ++ sid ++ "-maintenance")%string
          rec_maintenance
          ("Implement predictive maintenance schedule for " ++ sname)%string
          (Math_round (confidence * 12)) cost_medium "2 weeks" (priority + 1)])%list,
       priority + 1 + 1)
  | cause_material | cause_process => st
  end.

Definition generateRecommendations (station : StationData.t)
    (rootCauses : list RootCause.t) (impactScore : number)
    : list Recommendation.t :=
  let '(recommendations, priority) :=
    fold_left (recommend station) rootCauses ([], 1) in
  if 50 <? impactScore then
    (recommendations ++
    [Recommendation.mk
       ("rec-" ++ StationData.station_id station ++ "-rebalance")%string
       rec_rebalance
       ("Consider redistributing work from "
        ++ StationData.station_name station ++ " to adjacent stations")%string
       15 cost_medium "2-3 weeks" priority])%list
  else recommendations.

(** One iteration of the loop of [analyzeBottlenecks]: [None] is the
    [continue] taken when [avg_cycle_time] is falsy. *)
Definition analyzeStation (stationData : list StationData.t)
    (shiftData : list ShiftData.t) (station : StationData.t)
    : option BottleneckAnalysis.t :=
  match StationData.avg_cycle_time station with
  | Some avg =>
      if truthy avg then
        let variancePercent :=
          or_default (StationData.variance_percent station) 0 in
        let severity := getSeverity variancePercent in
        let impactScore := calculateImpactScore station stationData in
        let rootCauses := analyzeRootCauses station shiftData in
        let recommendations :=
          generateRecommendations station rootCauses impactScore in
        Some (BottleneckAnalysis.mk
                (StationData.station_id station)
                (StationData.station_name station)
                severity avg (StationData.target_cycle_time station)
                variancePercent (Math_floor (impactScore / 10)) impactScore
                rootCauses recommendations)
      else None
  | None => None
  end.

(** The [analyses] array after the loop, before it is sorted. *)
Fixpoint analyses (stationData : list StationData.t)
    (shiftData : list ShiftData.t) (rest : list StationData.t)
    : list BottleneckAnalysis.t :=
  match rest with
  | [] => []
  | station :: rest' =>
      match analyzeStation stationData shiftData station with
      | Some a => a :: analyses stationData shiftData rest'
      | None => analyses stationData shiftData rest'
      end
  end.

(** The array [analyzeBottlenecks] returns when the call completes. *)
Definition analyzeBottlenecks (stationData : list StationData.t)
    (shiftData : list ShiftData.t) : list BottleneckAnalysis.t :=
  JS.sort
    (fun a b => BottleneckAnalysis.impactScore b - BottleneckAnalysis.impactScore a)
    (analyses stationData shiftData stationData).

(** An iteration of the loop raises a TypeError when the station is not
    skipped and its shift block does (nothing else in the loop can); the
    error is not caught, so it ends the whole call. *)
Definition analyzeStationThrows (shiftData : list ShiftData.t)
    (station : StationData.t) : bool :=
  truthy_opt (StationData.avg_cycle_time station)
  && shiftCauseThrows station shiftData.

(** The call [analyzeBottlenecks(stationData, shiftData)] with its
    completion. *)
Definition analyzeBottlenecksCall (stationData : list StationData.t)
    (shiftData : list ShiftData.t) : Completion (list BottleneckAnalysis.t) :=
  if existsb (analyzeStationThrows shiftData) stationData
  then ThrowsTypeError
  else Returns (analyzeBottlenecks stationData shiftData).

(** ** What-if simulation engine *)

(** The element type of [SimulationInput.stations] *)
Module SimStation.
Record t := mk {
  id : string;
  name : string;
  targetCycleTime : number;
  avgCycleTime : number;
  operatorCount : number;
}.
End SimStation.

Inductive ChangeType :=
  | add_operator | remove_operator | change_cycle_time | add_station
  | remove_station.

(** [interface SimulationChange] *)
Module SimulationChange.
Record t := mk {
  type : ChangeType;
  stationId : string;
  value : number;
  description : string;
}.
End SimulationChange.

(** [interface SimulationResult]; [bottleneckStation] is [string | null]. *)
Module SimulationResult.
Record t := mk {
  throughputPerHour : number;
  avgCycleTime : number;
  lineEfficiency : number;
  bottleneckStation : option string;
  waitTimeTotal : number;
  utilizationByStation : gmap string number;
}.
End SimulationResult.

(** The first loop of [calculateLineMetrics]: the state is
    [(bottleneckStation, maxCycleTime)]. *)
Definition pickBottleneck (st : option string * number) (station : SimStation.t)
    : option string * number :=
  let '(bottleneckStation, maxCycleTime) := st in
  if maxCycleTime <? SimStation.avgCycleTime station
  then (Some (SimStation.id station), SimStation.avgCycleTime station)
  else (bottleneckStation, maxCycleTime).

Definition findBottleneck (stations : list SimStation.t)
    : option string * number :=
  fold_left pickBottleneck stations (None, 0).

(** The second loop: the state is [(utilizationByStation, waitTimeTotal)].
    [utilizationByStation[station.id] = n] stores nothing for the id
    [__proto__], the accessor inherited from [Object.prototype], whose
    setter ignores a number. *)
Definition accumulateUtilization (maxCycleTime : number)
    (st : gmap string number * number) (station : SimStation.t)
    : gmap string number * number :=
  let '(utilizationByStation, waitTimeTotal) := st in
  let utilization :=
    Math_min 1 (SimStation.avgCycleTime station / maxCycleTime) in
  ((if String.eqb (SimStation.id station) "__proto__"
    then utilizationByStation
    else <[SimStation.id station := utilization]> utilizationByStation),
   waitTimeTotal + (maxCycleTime - SimStation.avgCycleTime station)).

Definition calculateLineMetrics (stations : list SimStation.t)
    : SimulationResult.t :=
  let '(bottleneckStation, maxCycleTime) := findBottleneck stations in
  let throughputPerHour := Math_floor (3600 / maxCycleTime) in
  let avgCycleTime :=
    fold_left (fun sum s => sum + SimStation.avgCycleTime s) stations 0
    / JS.of_nat (length stations) in
  let '(utilizationByStation, waitTimeTotal) :=
    fold_left (accumulateUtilization maxCycleTime) stations (∅, 0) in
  let totalTargetTime :=
    fold_left (fun sum s => sum + SimStation.targetCycleTime s) stations 0 in
  let lineEfficiency :=
    (totalTargetTime / (maxCycleTime * JS.of_nat (length stations))) * 100 in
  SimulationResult.mk
    throughputPerHour
    (Math_round (avgCycleTime * 10) / 10)
    (Math_round (lineEfficiency * 10) / 10)
    bottleneckStation
    (Math_round waitTimeTotal)
    utilizationByStation.

(** The body of the [for (const change of stationChanges)] loop of
    [runSimulation]: [station] is the unmodified input station, [modified]
    the working copy. A change type without a [case] leaves the copy as
    it is. *)
Definition applyChange (station : SimStation.t) (modified : SimStation.t)
    (change : SimulationChange.t) : SimStation.t :=
  let v := SimulationChange.value change in
  match SimulationChange.type change with
  | add_operator =>
      let operatorCount := SimStation.operatorCount modified + v in
      let improvement := 1 - (0.15 * v * (1 / Math_sqrt operatorCount)) in
      SimStation.mk (SimStation.id modified) (SimStation.name modified)
        (SimStation.targetCycleTime modified)
        (SimStation.avgCycleTime station * improvement)
        operatorCount
  | remove_operator =>
      let operatorCount :=
        Math_max 1 (SimStation.operatorCount modified - v) in
      let degradation := 1 + (0.2 * v) in
      SimStation.mk (SimStation.id modified) (SimStation.name modified)
        (SimStation.targetCycleTime modified)
        (SimStation.avgCycleTime station * degradation)
        operatorCount
  | change_cycle_time =>
      SimStation.mk (SimStation.id modified) (SimStation.name modified)
        (SimStation.targetCycleTime modified)
        v
        (SimStation.operatorCount modified)
  | add_station | remove_station => modified
  end.

(** The callback of [input.stations.map]: the changes of this station, in
    list order, applied to a copy [{ ...station }]. *)
Definition modifyStation (changes : list SimulationChange.t)
    (station : SimStation.t) : SimStation.t :=
  let stationChanges :=
    List.filter
      (fun c => String.eqb (SimulationChange.stationId c) (SimStation.id station))
      changes in
  let copy :=
    SimStation.mk (SimStation.id station) (SimStation.name station)
      (SimStation.targetCycleTime station) (SimStation.avgCycleTime station)
      (SimStation.operatorCount station) in
  fold_left (applyChange station) stationChanges copy.

Definition modifiedStations (stations : list SimStation.t)
    (changes : list SimulationChange.t) : list SimStation.t :=
  List.map (modifyStation changes) stations.

(** [interface SimulationInput] and the result pair of [runSimulation]. *)
Record SimulationInput := {
  stations : list SimStation.t;
  changes : list SimulationChange.t;
}.

Record SimulationOutput := {
  baseline : SimulationResult.t;
  projected : SimulationResult.t;
}.

Definition runSimulation (input : SimulationInput) : SimulationOutput :=
  {| baseline := calculateLineMetrics (stations input);
     projected :=
       calculateLineMetrics (modifiedStations (stations input) (changes input)) |}.

(** ** Plain objects used as maps, and dates *)

Module JSObject.

(** The property names that every plain object inherits from
    [Object.prototype]: reading one of them on [{}] gives a function (or,
    for [__proto__], the prototype itself), not [undefined]. *)
Definition inherited_keys : list string :=
  ["constructor"; "__defineGetter__"; "__defineSetter__"; "hasOwnProperty";
   "__lookupGetter__"; "__lookupSetter__"; "isPrototypeOf";
   "propertyIsEnumerable"; "toString"; "valueOf"; "__proto__";
   "toLocaleString"].

Definition is_inherited (k : string) : bool :=
  existsb (String.eqb k) inherited_keys.

Fixpoint all_digits (s : string) : bool :=
  match s with
  | EmptyString => true
  | String c s' =>
      let n := nat_of_ascii c in
      (48 <=? n)%nat && (n <=? 57)%nat && all_digits s'
  end.

(** A property key is an array index when it is the canonical decimal
    form of an integer between 0 and 2^32 - 2. *)
Definition array_index (k : string) : option Z :=
  match k with
  | EmptyString => None
  | String c rest =>
      if all_digits k
         && (negb (Ascii.eqb c "0") || String.eqb rest EmptyString)
      then
        match JS.digits 10 None k with
        | Some z => if (z <=? 4294967294)%Z then Some z else None
        | None => None
        end
      else None
  end.

Section Entries.
Context {V : Type}.

Fixpoint lookup (o : list (string * V)) (k : string) : option V :=
  match o with
  | [] => None
  | (k', v) :: o' => if String.eqb k' k then Some v else lookup o' k
  end.

(** [o[k] = v] on own properties, in creation order: an existing key keeps
    its place. *)
Fixpoint set (o : list (string * V)) (k : string) (v : V)
    : list (string * V) :=
  match o with
  | [] => [(k, v)]
  | (k', v') :: o' =>
      if String.eqb k' k then (k, v) :: o' else (k', v') :: set o' k v
  end.

Fixpoint insert_index (e : Z * (string * V)) (l : list (Z * (string * V)))
    : list (Z * (string * V)) :=
  match l with
  | [] => [e]
  | e' :: l' =>
      if (fst e <=? fst e')%Z then e :: e' :: l' else e' :: insert_index e l'
  end.

(** [Object.entries(o)]: the array-index keys in ascending numeric order,
    then the other keys in creation order. *)
Definition entries (o : list (string * V)) : list (string * V) :=
  let indexed :=
    flat_map
      (fun kv => match array_index (fst kv) with
                 | Some z => [(z, kv)]
                 | None => []
                 end) o in
  let named :=
    List.filter
      (fun kv => match array_index (fst kv) with
                 | Some _ => false
                 | None => true
                 end) o in
  (List.map snd (fold_right insert_index [] indexed) ++ named)%list.
End Entries.

(** [xs.slice(-k)]: the last [k] elements, all of them when there are
    fewer. *)
Definition slice_last {A : Type} (k : nat) (xs : list A) : list A :=
  skipn (length xs - k) xs.

(** [TimeClip], applied by [new Date(t)]: NaN outside +-8.64e15 ms and for
    a [t] that is not finite, else [t] truncated to an integer, with +0
    for a zero. *)
Definition TimeClip (t : number) : number :=
  if negb (is_finite t) then nan
  else if 8.64e15 <? abs t then nan
  else
    let r := if t <? 0 then - JS.Math_floor (- t) else JS.Math_floor t in
    if is_zero r then 0 else r.

End JSObject.

(** ** Prediction engine *)

(** [interface TrendDataPoint] *)
Module TrendDataPoint.
Record t := mk {
  hour : string;
  station_id : string;
  value : number;
}.
End TrendDataPoint.

Inductive PredictionType :=
  | pred_delay | pred_bottleneck | pred_quality_drop | pred_maintenance_needed.

(** [interface Prediction]; [predictedTime] is the time value of the
    [Date], in milliseconds. *)
Module Prediction.
Record t := mk {
  id : string;
  type : PredictionType;
  stationId : string;
  predictedTime : number;
  confidence : number;
  description : string;
  preventiveActions : list string;
}.
End Prediction.

(** The loop of [calculateTrend]: [i] runs over the indices, the sums are
    accumulated in order. *)
Fixpoint trendSums (values : list number) (i sumX sumY sumXY sumX2 : number)
    : number * number * number * number :=
  match values with
  | [] => (sumX, sumY, sumXY, sumX2)
  | v :: values' =>
      trendSums values' (i + 1) (sumX + i) (sumY + v) (sumXY + i * v)
        (sumX2 + i * i)
  end.

Definition calculateTrend (values : list number) : number :=
  let n := JS.of_nat (length values) in
  let '(sumX, sumY, sumXY, sumX2) := trendSums values 0 0 0 0 0 in
  (n * sumXY - sumX * sumY) / (n * sumX2 - sumX * sumX).

(** [xs.reduce((a, b) => a + b, 0)] *)
Definition reduceSum (xs : list number) : number :=
  fold_left (fun a b => a + b) xs 0.

(** The first loop of [generatePredictions]: the values of each station, in
    the order of the points. Reading [byStation[id]] for an id that names an
    inherited property finds a truthy value without a [push] method, and the
    call [byStation[id].push(...)] throws a [TypeError]. *)
Fixpoint groupByStation (trendData : list TrendDataPoint.t)
    (byStation : list (string * list number))
    : Completion (list (string * list number)) :=
  match trendData with
  | [] => Returns byStation
  | point :: rest =>
      let sid := TrendDataPoint.station_id point in
      if JSObject.is_inherited sid then ThrowsTypeError
      else
        let values :=
          match JSObject.lookup byStation sid with
          | Some vs => vs
          | None => []
          end in
        groupByStation rest
          (JSObject.set byStation sid (values ++ [TrendDataPoint.value point])%list)
  end.

Section Predictions.

(** [Math.pow] is implementation-approximated in ECMA-262; the engine is
    modelled for an arbitrary one. *)
Variable Math_pow : number -> number -> number.

Definition calculateVariance (values : list number) : number :=
  let mean := reduceSum values / JS.of_nat (length values) in
  let squareDiffs := List.map (fun v => Math_pow (v - mean) 2) values in
  reduceSum squareDiffs / JS.of_nat (length values).

(** The body of the second loop of [generatePredictions] for one entry of
    [byStation]; [now] is the time value of [new Date()]. *)
Definition predictStation (now : number)
    (currentBottlenecks : list BottleneckAnalysis.t)
    (entry : string * list number) : list Prediction.t :=
  let '(stationId, values) := entry in
  if (length values <? 10)%nat then []
  else
    let trend := calculateTrend values in
    let recentAvg := reduceSum (JSObject.slice_last 5 values) / 5 in
    let historicalAvg := reduceSum values / JS.of_nat (length values) in
    let delay :=
      if (0.5 <? trend) && (historicalAvg * 1.1 <? recentAvg) then
        let bottleneck :=
          List.find
            (fun b => String.eqb (BottleneckAnalysis.stationId b) stationId)
            currentBottlenecks in
        let label :=
          match bottleneck with
          | Some b =>
              if String.eqb (BottleneckAnalysis.stationName b) EmptyString
              then stationId else BottleneckAnalysis.stationName b
          | None => stationId
          end in
        [Prediction.mk ("pred-" ++ stationId ++ "-delay")%string pred_delay
           stationId
           (JSObject.TimeClip (now + 4 * 60 * 60 * 1000))
           (Math_min 0.85 (0.5 + trend * 0.1))
           (label
            ++ " showing deteriorating trend - expect delays within 4 hours")%string
           ["Monitor station closely"; "Prepare backup operators";
            "Check equipment status"]%string]
      else [] in
    let variance := calculateVariance (JSObject.slice_last 20 values) in
    let maintenance :=
      if historicalAvg * 0.3 <? variance then
        [Prediction.mk ("pred-" ++ stationId ++ "-maintenance")%string
           pred_maintenance_needed stationId
           (JSObject.TimeClip (now + 24 * 60 * 60 * 1000))
           0.7
           ("Increased variability at " ++ stationId
            ++ " suggests equipment wear")%string
           ["Schedule preventive maintenance"; "Inspect critical components";
            "Prepare spare parts"]%string]
      else [] in
    (delay ++ maintenance)%list.

Definition generatePredictions (now : number)
    (trendData : list TrendDataPoint.t)
    (currentBottlenecks : list BottleneckAnalysis.t)
    : Completion (list Prediction.t) :=
  match groupByStation trendData [] with
  | Returns byStation =>
      Returns
        (flat_map (predictStation now currentBottlenecks)
           (JSObject.entries byStation))
  | ThrowsTypeError => ThrowsTypeError
  end.

End Predictions.

(** ** Natural language query agent *)

(** Strings are sequences of code units below 256. The regular
    expressions of the agent are all built from literal ASCII text, [\s],
    [\d] and [.*]; each is written out below as the matcher it denotes. *)
Module RegExp.

(** [\d] *)
Definition is_digit (c : ascii) : bool :=
  let n := nat_of_ascii c in (48 <=? n)%nat && (n <=? 57)%nat.

(** [\s] on code units below 256: tab to carriage return, space and the
    no-break space. *)
Definition is_white (c : ascii) : bool :=
  let n := nat_of_ascii c in
  ((9 <=? n)%nat && (n <=? 13)%nat) || (n =? 32)%nat || (n =? 160)%nat.

(** The characters that [.] does not match. *)
Definition is_line_terminator (c : ascii) : bool :=
  let n := nat_of_ascii c in (n =? 10)%nat || (n =? 13)%nat.

(** Canonicalization under the [i] flag, for comparing code units below
    256: [a]-[z] and the Latin-1 lower-case letters go to their upper-case
    forms. (The micro sign and y with diaeresis, whose upper-case forms lie
    above 255, are mapped to themselves; no other code unit below 256
    has the same canonical form.) *)
Definition upper (c : ascii) : ascii :=
  let n := nat_of_ascii c in
  if (97 <=? n)%nat && (n <=? 122)%nat then ascii_of_nat (n - 32)
  else if (224 <=? n)%nat && (n <=? 254)%nat && negb (n =? 247)%nat
  then ascii_of_nat (n - 32)
  else c.

(** The literal [p] matches at the start of [s], case-insensitively. *)
Fixpoint literal_ci (p s : string) : bool :=
  match p, s with
  | EmptyString, _ => true
  | String a p', String b s' =>
      Ascii.eqb (upper a) (upper b) && literal_ci p' s'
  | String _ _, EmptyString => false
  end.

(** [(p1|p2|...)] at the start of [s]: the first alternative that matches. *)
Fixpoint alternative_ci (ps : list string) (s : string) : option string :=
  match ps with
  | [] => None
  | p :: ps' => if literal_ci p s then Some p else alternative_ci ps' s
  end.

(** The first [n] code units of [s]. *)
Fixpoint take (n : nat) (s : string) : string :=
  match n, s with
  | S n', String c s' => String c (take n' s')
  | _, _ => EmptyString
  end.

(** [\s*]: the rest of [s] after its leading white space. The next item of
    each pattern starts with a character that is not white space, so the
    greedy match is the only one. *)
Fixpoint skip_white (s : string) : string :=
  match s with
  | String c s' => if is_white c then skip_white s' else s
  | EmptyString => EmptyString
  end.

(** [\s+] *)
Definition skip_white1 (s : string) : option string :=
  match s with
  | String c s' => if is_white c then Some (skip_white s') else None
  | EmptyString => None
  end.

(** [(\d+)]: the leading digits of [s] and the rest; the digits are
    followed by white space or a letter in each pattern, so again the
    greedy match is the only one. *)
Fixpoint take_digits (s : string) : string * string :=
  match s with
  | String c s' =>
      if is_digit c then
        let '(ds, rest) := take_digits s' in (String c ds, rest)
      else (EmptyString, s)
  | EmptyString => (EmptyString, EmptyString)
  end.

(** [(day|week|hour|month)] under [i]: the matched text, in the case of
    the input. *)
Definition unit_at (s : string) : option string :=
  match alternative_ci ["day"; "week"; "hour"; "month"]%string s with
  | Some p => Some (take (String.length p) s)
  | None => None
  end.

(** [.*(a1|a2|...)] at the start of [s]: some alternative starts later in
    [s] with no line terminator in between. *)
Fixpoint dot_star_then (alts : list string) (s : string) : bool :=
  match alternative_ci alts s with
  | Some _ => true
  | None =>
      match s with
      | String c s' =>
          if is_line_terminator c then false else dot_star_then alts s'
      | EmptyString => false
      end
  end.

(** [re.test(s)] and [s.match(re)] try every start position from the
    left. *)
Fixpoint search {A : Type} (at_ : string -> option A) (s : string)
    : option A :=
  match at_ s with
  | Some r => Some r
  | None =>
      match s with
      | String _ s' => search at_ s'
      | EmptyString => None
      end
  end.

Definition test (at_ : string -> bool) (s : string) : bool :=
  match search (fun x => if at_ x then Some tt else None) s with
  | Some _ => true
  | None => false
  end.

(** [/last\s+(\d+)\s+(day|week|hour|month)s?/i] at the start of [s]: the
    two captures. *)
Definition last_n_units_at (s : string) : option (string * string) :=
  if literal_ci "last" s then
    match skip_white1 (JS.drop 4 s) with
    | Some s1 =>
        let '(num, s2) := take_digits s1 in
        if String.eqb num EmptyString then None
        else
          match skip_white1 s2 with
          | Some s3 =>
              match unit_at s3 with
              | Some unit => Some (num, unit)
              | None => None
              end
          | None => None
          end
    | None => None
    end
  else None.

(** [/(\d+)\s*(day|week|hour|month)s?/i] at the start of [s]. *)
Definition n_units_at (s : string) : option (string * string) :=
  let '(num, s1) := take_digits s in
  if String.eqb num EmptyString then None
  else
    match unit_at (skip_white s1) with
    | Some unit => Some (num, unit)
    | None => None
    end.

(** [/a1|a2|.../i] at the start of [s]. *)
Definition any_of (alts : list string) (s : string) : bool :=
  match alternative_ci alts s with
  | Some _ => true
  | None => false
  end.

(** [/p.*(b1|...)/i] at the start of [s]. *)
Definition literal_then_later (p : string) (later : list string) (s : string)
    : bool :=
  literal_ci p s && dot_star_then later (JS.drop (String.length p) s).

(** [/p(a1|...).*(b1|...)/i] at the start of [s]. The alternatives used
    here start with different letters, so at most one matches. *)
Definition then_later (p : string) (alts later : list string) (s : string)
    : bool :=
  if literal_ci p s then
    let s1 := JS.drop (String.length p) s in
    match alternative_ci alts s1 with
    | Some a => dot_star_then later (JS.drop (String.length a) s1)
    | None => false
    end
  else false.

End RegExp.

(** [s.includes(p)] *)
Fixpoint includes (p s : string) : bool :=
  JS.starts_with p s
  || match s with
     | String _ s' => includes p s'
     | EmptyString => false
     end.

(** The lower-case form of a code unit below 256: [A]-[Z] and the Latin-1
    upper-case letters. *)
Definition lowerCaseChar (c : ascii) : ascii :=
  let n := nat_of_ascii c in
  if (65 <=? n)%nat && (n <=? 90)%nat then ascii_of_nat (n + 32)
  else if (192 <=? n)%nat && (n <=? 222)%nat && negb (n =? 215)%nat
  then ascii_of_nat (n + 32)
  else c.

(** [s.toLowerCase()] *)
Fixpoint toLowerCase (s : string) : string :=
  match s with
  | EmptyString => EmptyString
  | String c s' => String (lowerCaseChar c) (toLowerCase s')
  end.

(** [xs.join(sep)] *)
Fixpoint join (sep : string) (xs : list string) : string :=
  match xs with
  | [] => EmptyString
  | [x] => x
  | x :: xs' => (x ++ sep ++ join sep xs')%string
  end.

Inductive Action :=
  | act_find | act_compare | act_trend | act_predict | act_explain.

(** [interface QueryIntent]: [timeRange] is kept as the time values of its
    two dates; [filters] is always the empty object and is left out. *)
Module QueryIntent.
Record t := mk {
  action : Action;
  timeRange_start : number;
  timeRange_end : number;
  metrics : list string;
}.
End QueryIntent.

(** The result of [parseNaturalLanguageQuery] *)
Module ParsedQuery.
Record t := mk {
  intent : QueryIntent.t;
  sql : string;
  explanation : string;
}.
End ParsedQuery.

(** An entry of [QUERY_PATTERNS] *)
Module QueryPattern.
Record t := mk {
  pattern : string -> bool;
  action : Action;
  metrics : list string;
  sqlTemplate : string;
}.
End QueryPattern.

Definition throughputTemplate : string :=
  "
      SELECT s.name as station_name, s.id as station_id,
        AVG(pr.cycle_time) as avg_cycle_time,
        s.target_cycle_time,
        ((AVG(pr.cycle_time) - s.target_cycle_time) / s.target_cycle_time * 100) as variance_pct
      FROM stations s
      JOIN production_records pr ON s.id = pr.station_id
      WHERE pr.timestamp >= datetime('now', '-{timeRange}')
      GROUP BY s.id
      ORDER BY variance_pct DESC
      LIMIT 5
    ".

Definition shiftTemplate : string :=
  "
      SELECT shift,
        AVG(cycle_time) as avg_cycle_time,
        SUM(quantity) as total_output,
        AVG(defects * 1.0 / NULLIF(quantity, 0) * 100) as defect_rate
      FROM production_records
      WHERE timestamp >= datetime('now', '-{timeRange}')
      GROUP BY shift
      ORDER BY shift
    ".

Definition trendTemplate : string :=
  "
      SELECT strftime('%Y-%m-%d', timestamp) as date,
        AVG(cycle_time) as avg_cycle_time,
        SUM(quantity) as total_output
      FROM production_records
      WHERE timestamp >= datetime('now', '-{timeRange}')
      GROUP BY date
      ORDER BY date
    ".

Definition defectTemplate : string :=
  "
      SELECT s.name as station_name, s.id as station_id,
        SUM(pr.defects) as total_defects,
        SUM(pr.quantity) as total_quantity,
        (SUM(pr.defects) * 1.0 / NULLIF(SUM(pr.quantity), 0) * 100) as defect_rate
      FROM stations s
      JOIN production_records pr ON s.id = pr.station_id
      WHERE pr.timestamp >= datetime('now', '-{timeRange}')
      GROUP BY s.id
      ORDER BY defect_rate DESC
    ".

Definition downtimeTemplate : string :=
  "
      SELECT s.name as station_name, s.id as station_id,
        SUM(pr.downtime_minutes) as total_downtime,
        pr.downtime_reason,
        COUNT(*) as occurrences
      FROM stations s
      JOIN production_records pr ON s.id = pr.station_id
      WHERE pr.timestamp >= datetime('now', '-{timeRange}')
        AND pr.downtime_minutes > 0
      GROUP BY s.id, pr.downtime_reason
      ORDER BY total_downtime DESC
    ".

Definition operatorTemplate : string :=
  "
      SELECT o.name as operator_name, o.shift, s.name as station_name,
        AVG(pr.cycle_time) as avg_cycle_time,
        SUM(pr.defects) as total_defects,
        COUNT(*) as records
      FROM operators o
      JOIN production_records pr ON o.id = pr.operator_id
      JOIN stations s ON o.station_id = s.id
      WHERE pr.timestamp >= datetime('now', '-{timeRange}')
      GROUP BY o.id
      ORDER BY avg_cycle_time DESC
      LIMIT 10
    ".

(** The two halves of the SQL of the default query, around
    [${timeRange}]. *)
Definition defaultSqlBefore : string :=
  "
      SELECT s.name as station_name, s.id as station_id,
        AVG(pr.cycle_time) as avg_cycle_time,
        s.target_cycle_time,
        ((AVG(pr.cycle_time) - s.target_cycle_time) / s.target_cycle_time * 100) as variance_pct
      FROM stations s
      JOIN production_records pr ON s.id = pr.station_id
      WHERE pr.timestamp >= datetime('now', '-".

Definition defaultSqlAfter : string :=
  "')
      GROUP BY s.id
      ORDER BY variance_pct DESC
    ".

Definition QUERY_PATTERNS : list QueryPattern.t :=
  [QueryPattern.mk
     (RegExp.test
        (RegExp.then_later "which station "
           ["hurt"; "affected"; "impacted"; "caused"]
           ["output"; "throughput"; "production"]))
     act_find ["throughput"] throughputTemplate;
   QueryPattern.mk
     (RegExp.test
        (RegExp.literal_then_later "compare"
           ["shift"; "day"; "night"; "swing"]))
     act_compare ["cycle_time"; "throughput"] shiftTemplate;
   QueryPattern.mk
     (RegExp.test
        (RegExp.any_of ["trend"; "trending"; "over time"; "history"]))
     act_trend ["cycle_time"] trendTemplate;
   QueryPattern.mk
     (RegExp.test (RegExp.any_of ["defect"; "quality"; "reject"]))
     act_find ["defect_rate"] defectTemplate;
   QueryPattern.mk
     (RegExp.test
        (RegExp.any_of ["downtime"; "down time"; "stopped"; "idle"]))
     act_find ["downtime"] downtimeTemplate;
   QueryPattern.mk
     (RegExp.test (RegExp.any_of ["operator"; "worker"; "employee"]))
     act_find ["operator_performance"] operatorTemplate]%string.

Definition parseDuration (duration : string) : number :=
  match RegExp.search RegExp.n_units_at duration with
  | None => 7 * 24 * 60 * 60 * 1000
  | Some (num, unit) =>
      let value := JS.parseInt num in
      let u := toLowerCase unit in
      if String.eqb u "hour" then value * 60 * 60 * 1000
      else if String.eqb u "day" then value * 24 * 60 * 60 * 1000
      else if String.eqb u "week" then value * 7 * 24 * 60 * 60 * 1000
      else if String.eqb u "month" then value * 30 * 24 * 60 * 60 * 1000
      else 7 * 24 * 60 * 60 * 1000
  end.

Definition generateExplanation (action : Action) (metrics : list string)
    (timeRange : string) : string :=
  let metricNames :=
    join ", " (List.map (fun m => JS.replace "_" " " m) metrics) in
  match action with
  | act_find =>
      ("Finding stations with notable " ++ metricNames
       ++ " patterns over the " ++ timeRange)%string
  | act_compare =>
      ("Comparing " ++ metricNames
       ++ " across different dimensions for the " ++ timeRange)%string
  | act_trend =>
      ("Analyzing " ++ metricNames ++ " trends over the " ++ timeRange)%string
  | act_predict =>
      ("Generating predictions based on " ++ metricNames
       ++ " data from the " ++ timeRange)%string
  | act_explain =>
      ("Analyzing " ++ metricNames ++ " for the " ++ timeRange)%string
  end.

(** The first part of [parseNaturalLanguageQuery]: the time range. *)
Definition extractTimeRange (query : string) : string :=
  match RegExp.search RegExp.last_n_units_at query with
  | Some (num, unit) => (num ++ " " ++ unit ++ "s")%string
  | None =>
      if includes "today" query then "1 day"
      else if includes "yesterday" query then "2 days"
      else if includes "this week" query then "7 days"
      else if includes "this month" query then "30 days"
      else "7 days"
  end%string.

(** [clockStart] and [clockEnd] are the values of [Date.now()] and of
    [new Date()] when the intent is built. The replacement text of
    [replace] is the time range, which holds no [$]. *)
Definition parseNaturalLanguageQuery (clockStart clockEnd : number)
    (query : string) : ParsedQuery.t :=
  let timeRange := extractTimeRange query in
  let start := JSObject.TimeClip (clockStart - parseDuration timeRange) in
  match List.find (fun p => QueryPattern.pattern p query) QUERY_PATTERNS with
  | Some pattern =>
      ParsedQuery.mk
        (QueryIntent.mk (QueryPattern.action pattern) start clockEnd
           (QueryPattern.metrics pattern))
        (JS.replace "{timeRange}" timeRange (QueryPattern.sqlTemplate pattern))
        (generateExplanation (QueryPattern.action pattern)
           (QueryPattern.metrics pattern) timeRange)
  | None =>
      ParsedQuery.mk
        (QueryIntent.mk act_find start clockEnd ["cycle_time"]%string)
        (defaultSqlBefore ++ timeRange ++ defaultSqlAfter)%string
        ("Analyzing overall station performance for the " ++ timeRange)%string
  end.

(** The order of the severities: low < medium < high < critical. *)
Definition severityRank (severity : Severity) : nat :=
  match severity with
  | low => 0
  | medium => 1
  | high => 2
  | critical => 3
  end.

(** The lower-case ASCII letters, of which the unit words are made. *)
Definition is_lower_letter (a : ascii) : bool :=
  (97 <=? nat_of_ascii a)%nat && (nat_of_ascii a <=? 122)%nat.

(** What [calculateLineMetrics] returns on an empty line: Infinity
    throughput, NaN averages, no bottleneck, no wait, no utilization. *)
Definition emptyLineMetrics : SimulationResult.t :=
  SimulationResult.mk infinity nan nan None 0 ∅.

(** ** Sample inputs *)

Module Inputs.

(** A station running faster than its target. *)
Definition fastStation : StationData.t :=
  StationData.mk "ST009" "Packaging" 100 (Some 70) (Some 0) 10 (Some 0)
    (Some (-30)).

(** A consistently slow station with more than an hour of downtime. *)
Definition weldingCell : StationData.t :=
  StationData.mk "ST003" "Welding Cell" 90 (Some 110) (Some 0) 10
    (Some 120) (Some 22.2).

(** A station whose target cycle time is 0; the variance percent of
    such a row is null. *)
Definition zeroTarget : StationData.t :=
  StationData.mk "ST001" "Raw Material Prep" 0 (Some 50) None 10 None None.

(** A station whose id does not end in a number. *)
Definition unnumbered : StationData.t :=
  StationData.mk "WELD-A" "Welding Cell A" 90 (Some 95) (Some 3) 10 None
    (Some 5.5).

(** A station whose average cycle time is exactly 0. *)
Definition idle : StationData.t :=
  StationData.mk "ST004" "Paint Booth" 60 (Some 0) None 0 None None.

(** A station with erratic cycle times and an hour and a half of
    downtime. *)
Definition erratic : StationData.t :=
  StationData.mk "ST005" "Quality Check" 80 (Some 90) (Some 20) 40 (Some 90)
    (Some 12.5).

Definition dayNight : list ShiftData.t :=
  [ShiftData.mk "day" "ST001" 50 5; ShiftData.mk "night" "ST001" 60 5].

(** A station with a negative target, and two shift rows for it whose
    label is [__proto__]. *)
Definition negativeTarget : StationData.t :=
  StationData.mk "ST002" "Deburring" (-10) (Some 50) None 10 None None.

Definition protoShifts : list ShiftData.t :=
  [ShiftData.mk "__proto__" "ST002" 50 5; ShiftData.mk "__proto__" "ST002" 60 5].

Definition cutting : SimStation.t := SimStation.mk "ST001" "Cutting" 60 70 1.
Definition welding : SimStation.t := SimStation.mk "ST003" "Welding" 90 100 2.
Definition assembly : SimStation.t := SimStation.mk "ST007" "Assembly" 95 100 3.

Definition addTo (sid : string) (n : number) : SimulationChange.t :=
  SimulationChange.mk add_operator sid n "".

Definition trendOf (sid : string) (values : list number)
    : list TrendDataPoint.t :=
  List.map (fun v => TrendDataPoint.mk "2024-01-01T00:00:00" sid v) values.

(** Twelve points that end in a jump, and three points of another
    station. *)
Definition risingTrend : list TrendDataPoint.t :=
  (trendOf "ST003" [70; 72; 74; 76; 78; 80; 82; 84; 86; 88; 120; 130]
   ++ trendOf "ST001" [70; 72; 74])%list.

(** A stand-in for [Math.pow] to run the engine with; the engine only
    calls it with the exponent 2. *)
Definition power (x y : number) : number := x * x.

Definition risingPredictions : list Prediction.t :=
  [Prediction.mk "pred-ST003-delay" pred_delay "ST003" 1730014400000 0.85
     "ST003 showing deteriorating trend - expect delays within 4 hours"
     ["Monitor station closely"; "Prepare backup operators";
      "Check equipment status"]%string;
   Prediction.mk "pred-ST003-maintenance" pred_maintenance_needed "ST003"
     1730086400000 0.7
     "Increased variability at ST003 suggests equipment wear"
     ["Schedule preventive maintenance"; "Inspect critical components";
      "Prepare spare parts"]%string].

End Inputs.

(** * Properties *)

(** ** Order facts on positive numbers

    [0 <? x = true] excludes NaN, the zeros and the negative numbers; on
    what is left the comparisons of binary64 form a total order. The facts
    are read off the specification of the primitive comparisons. *)

Section PositiveOrder.

Let positive (f : spec_float) : Prop :=
  match f with
  | S754_infinity false | S754_finite false _ _ => True
  | _ => False
  end.

Lemma positive_spec (x : number) : (0 <? x) = true -> positive (Prim2SF x).
Proof.
  rewrite ltb_spec. change (Prim2SF 0) with (S754_zero false).
  destruct (Prim2SF x) as [s|s| |s m e]; simpl; try discriminate;
    destruct s; simpl; try discriminate; exact (fun _ => I).
Qed.

Ltac order_cases :=
  repeat match goal with
    | |- context [Pos.compare_cont Eq ?a ?b] =>
        change (Pos.compare_cont Eq a b) with (Pos.compare a b);
        destruct (Pos.compare_spec a b)
    | |- context [Z.compare ?a ?b] => destruct (Z.compare_spec a b)
    end;
  simpl; intros; try discriminate; try reflexivity; try lia.

Ltac by_spec x y :=
  let Hx := fresh in let Hy := fresh in
  intros Hx Hy; apply positive_spec in Hx; apply positive_spec in Hy;
  rewrite ?ltb_spec, ?leb_spec; unfold SFltb, SFleb;
  destruct (Prim2SF x) as [[]|[]| |[] ? ?]; try contradiction;
  destruct (Prim2SF y) as [[]|[]| |[] ? ?]; try contradiction;
  simpl; order_cases.

Lemma not_lt_le (x y : number) :
  (0 <? x) = true -> (0 <? y) = true ->
  (x <? y) = false -> (y <=? x) = true.
Proof. by_spec x y. Qed.

Lemma lt_trans (x y z : number) :
  (0 <? x) = true -> (0 <? y) = true -> (0 <? z) = true ->
  (x <? y) = true -> (y <? z) = true -> (x <? z) = true.
Proof.
  intros Hx Hy Hz; apply positive_spec in Hx, Hy, Hz.
  rewrite !ltb_spec; unfold SFltb.
  destruct (Prim2SF x) as [[]|[]| |[] ? ?]; try contradiction;
  destruct (Prim2SF y) as [[]|[]| |[] ? ?]; try contradiction;
  destruct (Prim2SF z) as [[]|[]| |[] ? ?]; try contradiction;
  simpl; order_cases.
Qed.

Lemma le_lt_trans (x y z : number) :
  (0 <? x) = true -> (0 <? y) = true -> (0 <? z) = true ->
  (x <=? y) = true -> (y <? z) = true -> (x <? z) = true.
Proof.
  intros Hx Hy Hz; apply positive_spec in Hx, Hy, Hz.
  rewrite !ltb_spec, leb_spec; unfold SFltb, SFleb.
  destruct (Prim2SF x) as [[]|[]| |[] ? ?]; try contradiction;
  destruct (Prim2SF y) as [[]|[]| |[] ? ?]; try contradiction;
  destruct (Prim2SF z) as [[]|[]| |[] ? ?]; try contradiction;
  simpl; order_cases.
Qed.

End PositiveOrder.

(** ** NaN is absorbing for addition *)

Lemma add_nan_r (x : number) : x + nan = nan.
Proof.
  apply Prim2SF_inj. rewrite add_spec.
  change (Prim2SF nan) with S754_nan.
  now destruct (Prim2SF x).
Qed.

Lemma add_nan_l (x : number) : nan + x = nan.
Proof.
  apply Prim2SF_inj. rewrite add_spec.
  change (Prim2SF nan) with S754_nan.
  now destruct (Prim2SF x).
Qed.

(** ** The sort keeps the elements *)

Section SortFacts.
Context {A : Type} (cmp : A -> A -> number).

Lemma insert_sorted_perm (x : A) (l : list A) :
  Permutation (JS.insert_sorted cmp x l) (x :: l).
Proof.
  induction l as [|y l IH]; simpl.
  - apply Permutation_refl.
  - destruct (0 <? cmp x y).
    + apply Permutation_trans with (y :: x :: l).
      * apply perm_skip, IH.
      * apply perm_swap.
    + apply Permutation_refl.
Qed.

Lemma sort_perm (l : list A) : Permutation (JS.sort cmp l) l.
Proof.
  induction l as [|x l IH]; simpl.
  - apply perm_nil.
  - apply Permutation_trans with (x :: JS.sort cmp l).
    + apply insert_sorted_perm.
    + apply perm_skip, IH.
Qed.
End SortFacts.

(** ** The analyzer loop *)

Lemma analyzeBottlenecks_perm stationData shiftData :
  Permutation (analyzeBottlenecks stationData shiftData)
    (analyses stationData shiftData stationData).
Proof. apply sort_perm. Qed.

Lemma analyses_app stationData shiftData l1 l2 :
  analyses stationData shiftData (l1 ++ l2)
  = (analyses stationData shiftData l1 ++ analyses stationData shiftData l2)%list.
Proof.
  induction l1 as [|s l1 IH]; simpl; [reflexivity|].
  destruct (analyzeStation stationData shiftData s); simpl; now rewrite IH.
Qed.

Lemma analyses_In stationData shiftData rest station a :
  In station rest ->
  analyzeStation stationData shiftData station = Some a ->
  In a (analyses stationData shiftData rest).
Proof.
  induction rest as [|s rest IH]; simpl; [tauto|].
  intros [->|Hin] Ha.
  - rewrite Ha. now left.
  - destruct (analyzeStation stationData shiftData s); [right|]; now apply IH.
Qed.

Lemma analyzeStation_falsy stationData shiftData station :
  truthy_opt (StationData.avg_cycle_time station) = false ->
  analyzeStation stationData shiftData station = None.
Proof.
  unfold analyzeStation, truthy_opt.
  destruct (StationData.avg_cycle_time station) as [avg|]; [|reflexivity].
  now intros ->.
Qed.

Lemma analyzeStation_truthy stationData shiftData station avg :
  StationData.avg_cycle_time station = Some avg ->
  truthy avg = true ->
  exists a,
    analyzeStation stationData shiftData station = Some a
    /\ BottleneckAnalysis.stationId a = StationData.station_id station
    /\ BottleneckAnalysis.avgCycleTime a = avg
    /\ BottleneckAnalysis.targetCycleTime a
       = StationData.target_cycle_time station
    /\ BottleneckAnalysis.impactScore a
       = calculateImpactScore station stationData.
Proof.
  intros Havg Ht. unfold analyzeStation. rewrite Havg, Ht.
  eexists; split; [reflexivity|]. simpl. auto.
Qed.

Lemma analyzeBottlenecks_In stationData shiftData station a :
  In station stationData ->
  analyzeStation stationData shiftData station = Some a ->
  In a (analyzeBottlenecks stationData shiftData).
Proof.
  intros Hin Ha.
  apply Permutation_in with (analyses stationData shiftData stationData).
  - apply Permutation_sym, analyzeBottlenecks_perm.
  - now apply analyses_In with station.
Qed.

(** *** When the call completes *)

Lemma analyzeBottlenecksCall_value stationData shiftData findings :
  analyzeBottlenecksCall stationData shiftData = Returns findings ->
  findings = analyzeBottlenecks stationData shiftData.
Proof.
  unfold analyzeBottlenecksCall.
  destruct (existsb _ _); [discriminate|]. now intros [= <-].
Qed.

Lemma obj_set_nonempty acc k v : obj_set acc k v <> [].
Proof.
  destruct acc as [|[k' v'] acc]; simpl; [discriminate|].
  destruct (String.eqb k' k); discriminate.
Qed.

Lemma avgByShift_fold_nonempty (rows : list ShiftData.t) acc :
  acc <> [] ->
  fold_left
    (fun acc s => obj_assign acc (ShiftData.shift s) (ShiftData.avg_cycle_time s))
    rows acc <> [].
Proof.
  revert acc. induction rows as [|s rows IH]; intros acc Hacc; simpl;
    [exact Hacc|].
  apply IH. unfold obj_assign.
  destruct (String.eqb _ _); [exact Hacc|apply obj_set_nonempty].
Qed.

(** With a shift row that is not labelled [__proto__], [avgByShift] has an
    entry. *)
Lemma avgByShiftOf_nonempty (s : ShiftData.t) (rows : list ShiftData.t) :
  ShiftData.shift s <> "__proto__" ->
  avgByShiftOf (s :: rows) <> [].
Proof.
  intros Hs. unfold avgByShiftOf. simpl. apply avgByShift_fold_nonempty.
  unfold obj_assign. apply String.eqb_neq in Hs. rewrite Hs. discriminate.
Qed.

Lemma shiftCauseThrows_labelled station shiftData :
  Forall (fun s => ShiftData.shift s <> "__proto__") shiftData ->
  shiftCauseThrows station shiftData = false.
Proof.
  intros Hall. unfold shiftCauseThrows.
  set (stationShifts := List.filter _ shiftData).
  assert (Hsub : Forall (fun s => ShiftData.shift s <> "__proto__")
                    stationShifts).
  { rewrite List.Forall_forall in *. intros s Hs. apply Hall.
    unfold stationShifts in Hs. now apply filter_In in Hs as [Hs _]. }
  destruct stationShifts as [|s rows]; [reflexivity|].
  destruct (1 <? length (s :: rows))%nat; [|reflexivity].
  cbv zeta. destruct (10 <? _); [|reflexivity].
  inversion Hsub as [|? ? Hs _]; subst.
  pose proof (avgByShiftOf_nonempty s rows Hs) as Hne.
  now destruct (avgByShiftOf (s :: rows)).
Qed.

(** The call completes whenever no shift row is labelled [__proto__]. *)
Lemma analyzeBottlenecksCall_returns stationData shiftData :
  Forall (fun s => ShiftData.shift s <> "__proto__") shiftData ->
  analyzeBottlenecksCall stationData shiftData
  = Returns (analyzeBottlenecks stationData shiftData).
Proof.
  intros Hall. unfold analyzeBottlenecksCall.
  destruct (existsb _ _) eqn:Hex; [|reflexivity].
  apply existsb_exists in Hex as (s & _ & Hs).
  unfold analyzeStationThrows in Hs.
  rewrite (shiftCauseThrows_labelled s shiftData Hall) in Hs.
  now rewrite Bool.andb_false_r in Hs.
Qed.

(** A sampled station with a negative target whose two shift rows are both
    labelled [__proto__]: [avgByShift] stays empty, the percent is
    [+Infinity] and the read of [worstShift[0]] ends the call. With the usual
    labels the call returns. *)
Example proto_shift_rows_end_the_call :
  analyzeBottlenecksCall [Inputs.fastStation; Inputs.negativeTarget]
    Inputs.protoShifts = ThrowsTypeError
  /\ analyzeBottlenecksCall [Inputs.fastStation; Inputs.negativeTarget]
       Inputs.dayNight
     = Returns (analyzeBottlenecks [Inputs.fastStation; Inputs.negativeTarget]
                  Inputs.dayNight).
Proof. split; vm_compute; reflexivity. Qed.

(** Without a numeric suffix in the station id the position sub-score is
    NaN, and so is the impact score of the finding that is returned. *)
Lemma impactScore_nan_without_numeric_suffix
    (stationData : list StationData.t) (shiftData : list ShiftData.t)
    (findings : list BottleneckAnalysis.t)
    (station : StationData.t) (avg : number) :
  In station stationData ->
  numeric_prefix (replace "ST" "" (StationData.station_id station)) = None ->
  StationData.avg_cycle_time station = Some avg ->
  truthy avg = true ->
  analyzeBottlenecksCall stationData shiftData = Returns findings ->
  positionScore station = nan
  /\ exists a,
       In a findings
       /\ BottleneckAnalysis.stationId a = StationData.station_id station
       /\ BottleneckAnalysis.impactScore a = nan.
Proof.
  intros Hin Hnone Havg Ht Hret.
  apply analyzeBottlenecksCall_value in Hret as ->.
  assert (Hpos : positionScore station = nan).
  { unfold positionScore, stationNumber, parseInt. now rewrite Hnone. }
  split; [exact Hpos|].
  destruct (analyzeStation_truthy stationData shiftData station avg Havg Ht)
    as (a & Ha & Hid & _ & _ & Hscore).
  exists a. split; [now apply analyzeBottlenecks_In with station|].
  split; [exact Hid|].
  rewrite Hscore. unfold calculateImpactScore.
  now rewrite Hpos, add_nan_r, add_nan_l.
Qed.

(** ** Claims about the analyzer *)

(** C1 (does not hold on the code): the impact score of a finding is meant
    to lie between 0 and 100. For a station 30 percent faster than its
    target the variance sub-score is [min(40, -60) = -60], nothing clamps
    it from below, and the finding carries the impact score -58. *)
Theorem impactScore_negative_for_fast_station :
  List.map BottleneckAnalysis.impactScore
    (analyzeBottlenecks [Inputs.fastStation] []) = [-58]
  /\ varianceScore Inputs.fastStation = -60
  /\ (0 <=? -58) = false.
Proof. repeat split; vm_compute; reflexivity. Qed.

(** C2 (does not hold on the code): recommendation ids are meant to be
    unique within a finding. When both equipment rules fire, the two
    equipment causes each emit an [-equipment] and a [-maintenance]
    recommendation under the same ids. *)
Theorem equipment_recommendation_ids_collide :
  List.map RootCause.type (analyzeRootCauses Inputs.weldingCell [])
  = [cause_equipment; cause_equipment]
  /\ List.map
       (fun a => List.map Recommendation.id (BottleneckAnalysis.recommendations a))
       (analyzeBottlenecks [Inputs.weldingCell] [])
     = [["rec-ST003-equipment"; "rec-ST003-maintenance";
         "rec-ST003-equipment"; "rec-ST003-maintenance";
         "rec-ST003-rebalance"]]
  /\ ~ List.NoDup
         (List.map Recommendation.id
            (generateRecommendations Inputs.weldingCell
               (analyzeRootCauses Inputs.weldingCell [])
               (calculateImpactScore Inputs.weldingCell [Inputs.weldingCell]))).
Proof.
  split; [vm_compute; reflexivity|]. split; [vm_compute; reflexivity|].
  intros Hnd.
  assert (Hids :
    List.map Recommendation.id
      (generateRecommendations Inputs.weldingCell
         (analyzeRootCauses Inputs.weldingCell [])
         (calculateImpactScore Inputs.weldingCell [Inputs.weldingCell]))
    = ["rec-ST003-equipment"; "rec-ST003-maintenance";
       "rec-ST003-equipment"; "rec-ST003-maintenance";
       "rec-ST003-rebalance"]) by (vm_compute; reflexivity).
  rewrite Hids in Hnd. inversion Hnd as [|? ? Hnotin _]; subst.
  apply Hnotin. simpl. auto.
Qed.

(** The collision is not tied to that station: whenever the slowness rule
    and the downtime rule both fire, whatever the shifts and the impact
    score, two recommendations share the [-equipment] id. *)
Lemma recommendation_ids_collide_when_both_equipment_rules_fire
    (station : StationData.t) (shiftData : list ShiftData.t)
    (impactScore : number) :
  (15 <? or_default (StationData.variance_percent station) 0) = true ->
  (coefficientOfVariation station <? 10) = true ->
  (60 <? or_default (StationData.total_downtime station) 0) = true ->
  ~ List.NoDup
      (List.map Recommendation.id
         (generateRecommendations station
            (analyzeRootCauses station shiftData) impactScore)).
Proof.
  intros Hslow Hcv Hdown. unfold analyzeRootCauses. cbv zeta.
  rewrite Hslow, Hcv, Hdown. simpl andb. cbv iota.
  rewrite !app_assoc.
  set (pre := (shiftCause station shiftData ++ _)%list).
  rewrite <- app_assoc. simpl app.
  unfold generateRecommendations. rewrite fold_left_app.
  destruct (fold_left (recommend station) pre ([], 1)) as [recs p].
  simpl fold_left. cbv beta iota zeta. simpl RootCause.type. cbv iota.
  assert (Hdup : forall l1 l2 : list string, forall x y : string,
             ~ List.NoDup (l1 ++ (x :: y :: x :: l2))%list).
  { intros l1 l2 x y Hnd. apply NoDup_remove_2 in Hnd.
    apply Hnd. rewrite in_app_iff. right. simpl. auto. }
  destruct (50 <? impactScore);
    rewrite ?List.map_app; simpl List.map; rewrite <- ?app_assoc; simpl app;
    apply Hdup.
Qed.

(** C3, as stated, fails: a station whose target cycle time is 0 is not
    skipped; a finding is emitted for it. *)
Lemma zero_target_station_yields_finding :
  (StationData.target_cycle_time Inputs.zeroTarget <=? 0) = true
  /\ List.map BottleneckAnalysis.stationId
       (analyzeBottlenecks [Inputs.zeroTarget] Inputs.dayNight) = ["ST001"]
  /\ List.map BottleneckAnalysis.targetCycleTime
       (analyzeBottlenecks [Inputs.zeroTarget] Inputs.dayNight) = [0].
Proof. repeat split; vm_compute; reflexivity. Qed.

(** C3 (amended): the analyzer has no guard on the target cycle time. A
    station whose target is 0 or negative and whose average cycle time is
    truthy is not skipped: whenever the call returns, its result holds a
    finding for the station, which carries the station's id, its average
    and its target unchanged. The call returns unless the shift block of a
    sampled station reads [worstShift[0]] with no shift entry, which takes
    shift rows labelled [__proto__]
    (see [analyzeBottlenecksCall_returns]). *)
Theorem nonpositive_target_not_skipped
    (stationData : list StationData.t) (shiftData : list ShiftData.t)
    (findings : list BottleneckAnalysis.t)
    (station : StationData.t) (avg : number) :
  In station stationData ->
  (StationData.target_cycle_time station <=? 0) = true ->
  StationData.avg_cycle_time station = Some avg ->
  truthy avg = true ->
  analyzeBottlenecksCall stationData shiftData = Returns findings ->
  exists a,
    In a findings
    /\ BottleneckAnalysis.stationId a = StationData.station_id station
    /\ BottleneckAnalysis.avgCycleTime a = avg
    /\ BottleneckAnalysis.targetCycleTime a
       = StationData.target_cycle_time station.
Proof.
  intros Hin _ Havg Ht Hret.
  apply analyzeBottlenecksCall_value in Hret as ->.
  destruct (analyzeStation_truthy stationData shiftData station avg Havg Ht)
    as (a & Ha & Hid & Havg' & Htarget & _).
  exists a. split; [now apply analyzeBottlenecks_In with station|].
  auto.
Qed.

Lemma nonpositive_target_not_skipped_witness :
  exists a,
    In a (analyzeBottlenecks
            [Inputs.fastStation; Inputs.zeroTarget; Inputs.negativeTarget]
            Inputs.dayNight)
    /\ BottleneckAnalysis.stationId a = "ST002"
    /\ BottleneckAnalysis.avgCycleTime a = 50
    /\ BottleneckAnalysis.targetCycleTime a = -10.
Proof.
  apply (nonpositive_target_not_skipped
           [Inputs.fastStation; Inputs.zeroTarget; Inputs.negativeTarget]
           Inputs.dayNight
           (analyzeBottlenecks
              [Inputs.fastStation; Inputs.zeroTarget; Inputs.negativeTarget]
              Inputs.dayNight)
           Inputs.negativeTarget 50).
  - simpl. auto.
  - vm_compute. reflexivity.
  - reflexivity.
  - vm_compute. reflexivity.
  - vm_compute. reflexivity.
Defined.

(** C4 (does not hold on the code): for a station id without a numeric
    suffix the position sub-score is meant to count as 0 and the impact
    score to stay a number. [parseInt] returns NaN, [Math.max(0, NaN)] is
    NaN, and the finding that is returned carries a NaN impact score. *)
Theorem unparseable_id_gives_nan_impact :
  numeric_prefix (replace "ST" "" (StationData.station_id Inputs.unnumbered))
  = None
  /\ is_nan (positionScore Inputs.unnumbered) = true
  /\ List.map
       (fun a => (BottleneckAnalysis.stationId a,
                  is_nan (BottleneckAnalysis.impactScore a)))
       (analyzeBottlenecks [Inputs.unnumbered] []) = [("WELD-A", true)].
Proof. repeat split; vm_compute; reflexivity. Qed.

(** C10: a station whose average cycle time is exactly 0 (either zero) is
    skipped. Its iteration produces nothing, and the findings of a call
    are, up to the final sort, the findings of the other stations of the
    list (scored against the whole list). *)
Theorem zero_avg_station_skipped
    (before after : list StationData.t) (shiftData : list ShiftData.t)
    (station : StationData.t) (avg : number) :
  StationData.avg_cycle_time station = Some avg ->
  is_zero avg = true ->
  let stationData := (before ++ station :: after)%list in
  analyzeStation stationData shiftData station = None
  /\ Permutation (analyzeBottlenecks stationData shiftData)
       (analyses stationData shiftData (before ++ after)).
Proof.
  intros Havg Hz stationData.
  assert (Hnone : analyzeStation stationData shiftData station = None).
  { apply analyzeStation_falsy. rewrite Havg. unfold truthy_opt, truthy.
    rewrite Hz. now destruct (is_nan avg). }
  split; [exact Hnone|].
  eapply Permutation_trans; [apply analyzeBottlenecks_perm|].
  unfold stationData at 2. rewrite !analyses_app. simpl.
  fold stationData. rewrite Hnone. apply Permutation_refl.
Qed.

Lemma zero_avg_station_skipped_witness :
  analyzeStation [Inputs.weldingCell; Inputs.idle; Inputs.fastStation] []
    Inputs.idle = None
  /\ Permutation
       (analyzeBottlenecks
          [Inputs.weldingCell; Inputs.idle; Inputs.fastStation] [])
       (analyses [Inputs.weldingCell; Inputs.idle; Inputs.fastStation] []
          [Inputs.weldingCell; Inputs.fastStation]).
Proof.
  apply (zero_avg_station_skipped [Inputs.weldingCell] [Inputs.fastStation] []
           Inputs.idle 0).
  - reflexivity.
  - vm_compute. reflexivity.
Defined.

(** ** Claims about the simulator *)

(** C5, as stated, fails: on an empty station list the division by the
    bottleneck cycle time is not guarded. The throughput is Infinity, and the
    average cycle time and the line efficiency are NaN. *)
Lemma empty_line_fields_not_finite :
  let r := runSimulation {| stations := []; changes := [] |} in
  is_finite (SimulationResult.throughputPerHour (baseline r)) = false
  /\ is_nan (SimulationResult.avgCycleTime (baseline r)) = true
  /\ is_nan (SimulationResult.lineEfficiency (projected r)) = true.
Proof. repeat split; vm_compute; reflexivity. Qed.

(** C5 (amended): given an empty station list and any change list,
    [runSimulation] returns a result (it raises nothing); in baseline and
    projected alike the bottleneck station is null, the total wait time is 0
    and the utilization map is empty, while the unguarded divisions make
    the throughput Infinity and the average cycle time and the line
    efficiency NaN. *)
Theorem runSimulation_empty_line (cs : list SimulationChange.t) :
  runSimulation {| stations := []; changes := cs |}
  = {| baseline := emptyLineMetrics; projected := emptyLineMetrics |}.
Proof.
  unfold runSimulation, modifiedStations. simpl.
  assert (H : calculateLineMetrics [] = emptyLineMetrics)
    by (vm_compute; reflexivity).
  rewrite H. reflexivity.
Qed.

(** The bottleneck loop, started on a candidate already chosen: either the
    candidate survives and nothing in the rest exceeds it, or the loop ends
    on the first station of the rest that has the greatest cycle time. *)
Lemma findBottleneck_from (l : list SimStation.t) (bid : string) (m : number) :
  (0 <? m) = true ->
  Forall (fun s => (0 <? SimStation.avgCycleTime s) = true) l ->
  (fold_left pickBottleneck l (Some bid, m) = (Some bid, m)
   /\ Forall (fun s => (SimStation.avgCycleTime s <=? m) = true) l)
  \/ exists pre c post,
       l = (pre ++ c :: post)%list
       /\ fold_left pickBottleneck l (Some bid, m)
          = (Some (SimStation.id c), SimStation.avgCycleTime c)
       /\ (m <? SimStation.avgCycleTime c) = true
       /\ Forall
            (fun s =>
               (SimStation.avgCycleTime s <? SimStation.avgCycleTime c) = true)
            pre
       /\ Forall
            (fun s =>
               (SimStation.avgCycleTime s <=? SimStation.avgCycleTime c) = true)
            post.
Proof.
  revert bid m. induction l as [|s l IH]; intros bid m Hm Hl.
  - left. split; [reflexivity|constructor].
  - inversion Hl as [|? ? Hs Hl']; subst. simpl.
    assert (Hpos : forall pre c post, l = (pre ++ c :: post)%list ->
                   (0 <? SimStation.avgCycleTime c) = true).
    { intros pre c post ->. apply Forall_app in Hl' as [_ Hc].
      now inversion Hc. }
    destruct (m <? SimStation.avgCycleTime s) eqn:Hlt.
    + right.
      destruct (IH (SimStation.id s) (SimStation.avgCycleTime s) Hs Hl')
        as [[Hfold Hall]|(pre & c & post & Hsplit & Hfold & Hsc & Hpre & Hpost)].
      * exists [], s, l. repeat split; auto.
      * exists (s :: pre), c, post. rewrite Hsplit at 1.
        repeat split; auto.
        apply lt_trans with (SimStation.avgCycleTime s); eauto.
    + assert (Hsm : (SimStation.avgCycleTime s <=? m) = true)
        by now apply not_lt_le.
      destruct (IH bid m Hm Hl')
        as [[Hfold Hall]|(pre & c & post & Hsplit & Hfold & Hmc & Hpre & Hpost)].
      * left. split; auto.
      * right. exists (s :: pre), c, post. rewrite Hsplit at 1.
        repeat split; auto.
        constructor; auto.
        apply le_lt_trans with m; eauto.
Qed.

Lemma bottleneckStation_findBottleneck (stations : list SimStation.t) :
  SimulationResult.bottleneckStation (calculateLineMetrics stations)
  = fst (findBottleneck stations).
Proof.
  unfold calculateLineMetrics.
  destruct (findBottleneck stations) as [b m].
  destruct (fold_left (accumulateUtilization m) stations (∅, 0)).
  reflexivity.
Qed.

(** C6: on a non-empty station list with positive average cycle times the
    bottleneck is the first station, in input order, whose average cycle
    time is the greatest: every station before it is strictly below it and
    every station after it is at most equal to it. *)
Theorem bottleneck_is_first_maximum (stations : list SimStation.t) :
  stations <> [] ->
  Forall (fun s => (0 <? SimStation.avgCycleTime s) = true) stations ->
  exists pre b post,
    stations = (pre ++ b :: post)%list
    /\ SimulationResult.bottleneckStation (calculateLineMetrics stations)
       = Some (SimStation.id b)
    /\ Forall
         (fun s =>
            (SimStation.avgCycleTime s <? SimStation.avgCycleTime b) = true)
         pre
    /\ Forall
         (fun s =>
            (SimStation.avgCycleTime s <=? SimStation.avgCycleTime b) = true)
         post.
Proof.
  intros Hne Hall. destruct stations as [|s0 l]; [contradiction|].
  inversion Hall as [|? ? H0 Hl]; subst.
  rewrite bottleneckStation_findBottleneck. unfold findBottleneck. simpl.
  rewrite H0.
  destruct (findBottleneck_from l (SimStation.id s0) (SimStation.avgCycleTime s0) H0 Hl)
    as [[Hfold Hle]|(pre & c & post & Hsplit & Hfold & Hlt & Hpre & Hpost)].
  - exists [], s0, l. rewrite Hfold. repeat split; auto.
  - exists (s0 :: pre), c, post. rewrite Hfold, Hsplit.
    repeat split; auto.
Qed.

Lemma bottleneck_is_first_maximum_witness :
  exists pre b post,
    [Inputs.cutting; Inputs.welding; Inputs.assembly]
    = (pre ++ b :: post)%list
    /\ SimulationResult.bottleneckStation
         (calculateLineMetrics
            [Inputs.cutting; Inputs.welding; Inputs.assembly])
       = Some (SimStation.id b)
    /\ Forall
         (fun s =>
            (SimStation.avgCycleTime s <? SimStation.avgCycleTime b) = true)
         pre
    /\ Forall
         (fun s =>
            (SimStation.avgCycleTime s <=? SimStation.avgCycleTime b) = true)
         post.
Proof.
  apply (bottleneck_is_first_maximum
           [Inputs.cutting; Inputs.welding; Inputs.assembly]).
  - discriminate.
  - repeat constructor.
Defined.

(** Welding and assembly tie at 100 seconds; the earlier one is chosen. *)
Example bottleneck_tie_goes_to_first :
  SimulationResult.bottleneckStation
    (calculateLineMetrics [Inputs.cutting; Inputs.welding; Inputs.assembly])
  = Some "ST003".
Proof. vm_compute. reflexivity. Qed.

(** The working copy [{ ...station }] has the fields of the station. *)
Lemma station_copy (station : SimStation.t) :
  SimStation.mk (SimStation.id station) (SimStation.name station)
    (SimStation.targetCycleTime station) (SimStation.avgCycleTime station)
    (SimStation.operatorCount station) = station.
Proof. now destruct station. Qed.

Lemma modifyStation_fold (cs : list SimulationChange.t) (station : SimStation.t) :
  modifyStation cs station
  = fold_left (applyChange station)
      (List.filter
         (fun c => String.eqb (SimulationChange.stationId c) (SimStation.id station))
         cs)
      station.
Proof. unfold modifyStation. now rewrite station_copy. Qed.

(** The operator count after a run of [add_operator] changes is the count
    before it with the values added one after the other. *)
Lemma operatorCount_add_operators (station modified : SimStation.t)
    (cs : list SimulationChange.t) :
  Forall (fun c => SimulationChange.type c = add_operator) cs ->
  SimStation.operatorCount (fold_left (applyChange station) cs modified)
  = fold_left (fun k c => k + SimulationChange.value c) cs
      (SimStation.operatorCount modified).
Proof.
  revert modified. induction cs as [|c cs IH]; intros modified Hall; simpl.
  - reflexivity.
  - inversion Hall as [|? ? Hc Hcs]; subst. rewrite IH by assumption.
    unfold applyChange. rewrite Hc. reflexivity.
Qed.

Lemma applyChange_identity station modified change :
  SimStation.id (applyChange station modified change) = SimStation.id modified
  /\ SimStation.name (applyChange station modified change)
     = SimStation.name modified
  /\ SimStation.targetCycleTime (applyChange station modified change)
     = SimStation.targetCycleTime modified.
Proof.
  unfold applyChange. now destruct (SimulationChange.type change).
Qed.

Lemma fold_applyChange_identity station cs modified :
  SimStation.id (fold_left (applyChange station) cs modified)
  = SimStation.id modified
  /\ SimStation.name (fold_left (applyChange station) cs modified)
     = SimStation.name modified
  /\ SimStation.targetCycleTime (fold_left (applyChange station) cs modified)
     = SimStation.targetCycleTime modified.
Proof.
  revert modified. induction cs as [|c cs IH]; intros modified; simpl;
    [auto|].
  destruct (IH (applyChange station modified c)) as (-> & -> & ->).
  apply applyChange_identity.
Qed.

(** The line after the changes, around one of its stations. *)
Lemma modifiedStations_app (pre post : list SimStation.t) (station : SimStation.t)
    (cs : list SimulationChange.t) :
  modifiedStations (pre ++ station :: post) cs
  = (modifiedStations pre cs ++ modifyStation cs station
       :: modifiedStations post cs)%list.
Proof. unfold modifiedStations. now rewrite List.map_app. Qed.

(** C7: take a station of the line and let the changes that target it be
    [add_operator] changes up to and including a change [c] of value [n].
    After [c] the working copy is the station with its operator count
    raised by the values so far, added in order, and with the average cycle
    time [baseline * (1 - 0.15 * n * (1 / sqrt newOperatorCount))], where
    [baseline] is the average of the unmodified station: earlier changes
    enter through the operator count only, they do not compound. The
    station that [runSimulation] puts in its place in the line, and
    measures for the projected result, is this copy after the remaining
    changes of the station, that is this copy itself when [c] is the last
    of them. *)
Theorem add_operator_recomputes_from_baseline
    (pre post : list SimStation.t) (station : SimStation.t)
    (cs earlier later : list SimulationChange.t) (c : SimulationChange.t) :
  List.filter
    (fun x => String.eqb (SimulationChange.stationId x) (SimStation.id station))
    cs = (earlier ++ c :: later)%list ->
  Forall (fun x => SimulationChange.type x = add_operator) (earlier ++ [c]) ->
  let newOperatorCount :=
    fold_left (fun k x => k + SimulationChange.value x) (earlier ++ [c])
      (SimStation.operatorCount station) in
  let modified :=
    SimStation.mk (SimStation.id station) (SimStation.name station)
      (SimStation.targetCycleTime station)
      (SimStation.avgCycleTime station
       * (1 - (0.15 * SimulationChange.value c
               * (1 / Math_sqrt newOperatorCount))))
      newOperatorCount in
  let line :=
    (modifiedStations pre cs
     ++ fold_left (applyChange station) later modified
     :: modifiedStations post cs)%list in
  fold_left (applyChange station) (earlier ++ [c]) station = modified
  /\ modifiedStations (pre ++ station :: post) cs = line
  /\ projected
       (runSimulation
          {| stations := (pre ++ station :: post)%list; changes := cs |})
     = calculateLineMetrics line.
Proof.
  intros Hfilter Hall. cbv zeta.
  assert (Hmodified :
    fold_left (applyChange station) (earlier ++ [c]) station
    = SimStation.mk (SimStation.id station) (SimStation.name station)
        (SimStation.targetCycleTime station)
        (SimStation.avgCycleTime station
         * (1 - (0.15 * SimulationChange.value c
                 * (1 / Math_sqrt
                          (fold_left (fun k x => k + SimulationChange.value x)
                             (earlier ++ [c])
                             (SimStation.operatorCount station))))))
        (fold_left (fun k x => k + SimulationChange.value x) (earlier ++ [c])
           (SimStation.operatorCount station))).
  { pose proof (operatorCount_add_operators station station _ Hall) as Hcount.
    rewrite <- Hcount.
    destruct (fold_applyChange_identity station (earlier ++ [c]) station)
      as (Hid & Hname & Htarget).
    rewrite <- Hid, <- Hname, <- Htarget.
    rewrite !fold_left_app. simpl.
    apply Forall_app in Hall as [_ Hc]. inversion Hc as [|? ? Hty _]; subst.
    unfold applyChange. rewrite Hty. reflexivity. }
  assert (Hline :
    modifiedStations (pre ++ station :: post) cs
    = (modifiedStations pre cs
       ++ fold_left (applyChange station) later
            (fold_left (applyChange station) (earlier ++ [c]) station)
       :: modifiedStations post cs)%list).
  { rewrite modifiedStations_app, modifyStation_fold, Hfilter.
    rewrite <- fold_left_app, <- app_assoc. reflexivity. }
  rewrite Hmodified in Hline.
  split; [exact Hmodified|]. split; [exact Hline|].
  unfold runSimulation. simpl. now rewrite Hline.
Qed.

Lemma add_operator_recomputes_from_baseline_witness :
  let cs := [Inputs.addTo "ST003" 1; Inputs.addTo "ST001" 4;
             Inputs.addTo "ST003" 2] in
  let modified :=
    SimStation.mk "ST003" "Welding" 90 (100 * (1 - (0.15 * 2 * (1 / sqrt 5)))) 5 in
  fold_left (applyChange Inputs.welding)
    [Inputs.addTo "ST003" 1; Inputs.addTo "ST003" 2] Inputs.welding = modified
  /\ modifiedStations [Inputs.cutting; Inputs.welding; Inputs.assembly] cs
     = [modifyStation cs Inputs.cutting; modified; Inputs.assembly]
  /\ projected
       (runSimulation
          {| stations := [Inputs.cutting; Inputs.welding; Inputs.assembly];
             changes := cs |})
     = calculateLineMetrics
         [modifyStation cs Inputs.cutting; modified; Inputs.assembly].
Proof.
  apply (add_operator_recomputes_from_baseline
           [Inputs.cutting] [Inputs.assembly] Inputs.welding
           [Inputs.addTo "ST003" 1; Inputs.addTo "ST001" 4;
            Inputs.addTo "ST003" 2]
           [Inputs.addTo "ST003" 1] [] (Inputs.addTo "ST003" 2)).
  - reflexivity.
  - repeat constructor.
Defined.

(** Two changes of +1 and +2 operators on the welding station: 5 operators,
    and [100 * (1 - 0.3 / sqrt 5)] seconds, not the product of two
    improvements. *)
Example add_operator_twice :
  List.map (fun s => (SimStation.operatorCount s, SimStation.avgCycleTime s))
    (modifiedStations [Inputs.welding]
       [Inputs.addTo "ST003" 1; Inputs.addTo "ST003" 2])
  = [(5, 100 * (1 - 0.15 * 2 * (1 / sqrt 5)))].
Proof. vm_compute. reflexivity. Qed.

(** C8: with an empty change list the projected result is the baseline
    result, field for field. *)
Theorem runSimulation_no_changes (stations : list SimStation.t) :
  projected (runSimulation {| stations := stations; changes := [] |})
  = baseline (runSimulation {| stations := stations; changes := [] |}).
Proof.
  unfold runSimulation, modifiedStations. simpl. f_equal.
  induction stations as [|s l IH]; simpl; [reflexivity|].
  rewrite IH. f_equal. unfold modifyStation. simpl. apply station_copy.
Qed.

(** C9 (does not hold on the code): the operator count is meant to stay at
    least 1 after any change. [remove_operator] clamps with [Math.max(1, _)],
    [add_operator] does not: a value of -3 takes a station with 2 operators
    to -1, whereas the same removal written as [remove_operator] stops at 1. *)
Theorem add_operator_negative_drops_below_one :
  (1 <=? SimStation.operatorCount Inputs.welding) = true
  /\ List.map SimStation.operatorCount
       (modifiedStations [Inputs.welding] [Inputs.addTo "ST003" (-3)]) = [-1]
  /\ (1 <=? -1) = false
  /\ List.map SimStation.operatorCount
       (modifiedStations [Inputs.welding]
          [SimulationChange.mk remove_operator "ST003" 3 ""]) = [1].
Proof. repeat split; vm_compute; reflexivity. Qed.

(** * Further properties *)

(** ** Comparisons of arbitrary numbers

    Unlike the facts on positive numbers above, these hold for every
    binary64 value, NaN and the infinities included. *)

Section NumberOrder.

Ltac cmp_cases :=
  repeat match goal with
    | |- context [Pos.compare_cont Eq ?a ?b] =>
        change (Pos.compare_cont Eq a b) with (Pos.compare a b);
        destruct (Pos.compare_spec a b)
    | |- context [Z.compare ?a ?b] => destruct (Z.compare_spec a b)
    end;
  simpl; intros; try discriminate; try reflexivity; try lia.

Lemma ltb_irrefl (x : number) : (x <? x) = false.
Proof.
  rewrite ltb_spec. unfold SFltb.
  destruct (Prim2SF x) as [[]|[]| |[] m e]; simpl; try reflexivity;
    rewrite Z.compare_refl, Pos.compare_cont_refl; reflexivity.
Qed.

Lemma ltb_nan_r (x : number) : (x <? nan) = false.
Proof.
  rewrite ltb_spec. change (Prim2SF nan) with S754_nan. unfold SFltb.
  now destruct (Prim2SF x) as [[]|[]| |[] m e].
Qed.


Lemma ltb_trans (x y z : number) :
  (x <? y) = true -> (y <? z) = true -> (x <? z) = true.
Proof.
  rewrite !ltb_spec. unfold SFltb.
  destruct (Prim2SF x) as [[]|[]| |[] ? ?];
    destruct (Prim2SF y) as [[]|[]| |[] ? ?];
    destruct (Prim2SF z) as [[]|[]| |[] ? ?];
    simpl; try discriminate; try reflexivity; cmp_cases.
Qed.

(** [Math.min(c, y)] is never above [c], and [Math.max(c, y)] never below
    it (either may be NaN, which compares false). *)
Lemma Math_min_cap (c y : number) : (c <? Math_min c y) = false.
Proof.
  unfold Math_min.
  destruct (is_nan c || is_nan y); [apply ltb_nan_r|].
  destruct (c <? y) eqn:Hcy; [apply ltb_irrefl|].
  destruct (y <? c); [exact Hcy|].
  destruct (is_zero c && get_sign y); [exact Hcy|apply ltb_irrefl].
Qed.


End NumberOrder.

(** ** The findings and the stations they come from *)

Lemma analyses_ids stationData shiftData rest :
  List.map BottleneckAnalysis.stationId (analyses stationData shiftData rest)
  = List.map StationData.station_id
      (List.filter (fun s => truthy_opt (StationData.avg_cycle_time s)) rest).
Proof.
  induction rest as [|s rest IH]; simpl; [reflexivity|].
  unfold analyzeStation at 1.
  destruct (StationData.avg_cycle_time s) as [avg|]; simpl; [|exact IH].
  destruct (truthy avg); simpl; [now rewrite IH|exact IH].
Qed.

Lemma analyses_avg_truthy stationData shiftData rest :
  Forall (fun a => truthy (BottleneckAnalysis.avgCycleTime a) = true)
    (analyses stationData shiftData rest).
Proof.
  induction rest as [|s rest IH]; simpl; [constructor|].
  unfold analyzeStation at 1.
  destruct (StationData.avg_cycle_time s) as [avg|]; [|exact IH].
  destruct (truthy avg) eqn:Ht; [|exact IH].
  constructor; [exact Ht|exact IH].
Qed.

(** X1: Whenever the call returns, the findings are, up to the final sort,
    one per station whose average cycle time is truthy (not null, not 0, not
    NaN), and every finding carries such an average. *)
Theorem findings_are_the_sampled_stations
    (stationData : list StationData.t) (shiftData : list ShiftData.t)
    (findings : list BottleneckAnalysis.t) :
  analyzeBottlenecksCall stationData shiftData = Returns findings ->
  Permutation
    (List.map BottleneckAnalysis.stationId findings)
    (List.map StationData.station_id
       (List.filter (fun s => truthy_opt (StationData.avg_cycle_time s))
          stationData))
  /\ Forall (fun a => truthy (BottleneckAnalysis.avgCycleTime a) = true)
       findings.
Proof.
  intros Hret. apply analyzeBottlenecksCall_value in Hret as ->.
  split.
  - rewrite <- (analyses_ids stationData shiftData stationData).
    apply Permutation_map, analyzeBottlenecks_perm.
  - rewrite List.Forall_forall. intros a Ha.
    pose proof (analyses_avg_truthy stationData shiftData stationData) as Hall.
    rewrite List.Forall_forall in Hall. apply Hall.
    exact (Permutation_in a (analyzeBottlenecks_perm stationData shiftData) Ha).
Qed.

Lemma findings_are_the_sampled_stations_witness :
  Permutation
    (List.map BottleneckAnalysis.stationId
       (analyzeBottlenecks
          [Inputs.weldingCell; Inputs.idle; Inputs.negativeTarget;
           Inputs.erratic] Inputs.dayNight))
    ["ST003"; "ST002"; "ST005"]
  /\ Forall (fun a => truthy (BottleneckAnalysis.avgCycleTime a) = true)
       (analyzeBottlenecks
          [Inputs.weldingCell; Inputs.idle; Inputs.negativeTarget;
           Inputs.erratic] Inputs.dayNight).
Proof.
  apply (findings_are_the_sampled_stations
           [Inputs.weldingCell; Inputs.idle; Inputs.negativeTarget;
            Inputs.erratic] Inputs.dayNight).
  vm_compute. reflexivity.
Defined.

(** ** The shape of the root causes *)

Lemma shiftCause_cases station shiftData :
  shiftCause station shiftData = []
  \/ exists y,
       shiftCause station shiftData
       = [RootCause.mk cause_shift (Math_min 0.9 y)].
Proof.
  unfold shiftCause.
  destruct (1 <? length _)%nat; [|now left].
  cbv zeta. destruct (10 <? _); [right; eexists; reflexivity|now left].
Qed.

(** The causes come in the order shift, operator, equipment (slowness),
    equipment (downtime), each at most once; the operator rule ([cv > 15])
    and the slowness rule ([cv < 10]) exclude each other. *)
Lemma analyzeRootCauses_shape station shiftData :
  exists (b1 b2 : bool) (y1 y2 : number),
    let b3 :=
      (15 <? or_default (StationData.variance_percent station) 0)
      && (coefficientOfVariation station <? 10) in
    let b4 := 60 <? or_default (StationData.total_downtime station) 0 in
    analyzeRootCauses station shiftData
    = ((if b1 then [RootCause.mk cause_shift (Math_min 0.9 y1)] else [])
       ++ (if b2 then [RootCause.mk cause_operator (Math_min 0.85 y2)] else [])
       ++ (if b3 then [RootCause.mk cause_equipment 0.75] else [])
       ++ (if b4 then [RootCause.mk cause_equipment 0.8] else []))%list
    /\ b2 && b3 = false.
Proof.
  unfold analyzeRootCauses. cbv zeta.
  set (cv := coefficientOfVariation station).
  assert (Hex : (15 <? cv) && ((15 <? or_default (StationData.variance_percent station) 0)
                               && (cv <? 10)) = false).
  { destruct (15 <? cv) eqn:H1; [|reflexivity].
    destruct (cv <? 10) eqn:H2; [|now rewrite andb_false_r].
    pose proof (ltb_trans _ _ _ H1 H2) as H. vm_compute in H. discriminate. }
  destruct (shiftCause_cases station shiftData) as [->|[y ->]].
  - exists false, (15 <? cv), 0, (cv / 25). split; [reflexivity|exact Hex].
  - exists true, (15 <? cv), y, (cv / 25). split; [reflexivity|exact Hex].
Qed.

(** X2: The confidence of a root cause never exceeds the maximum of its type:
    0.9 for a shift cause, 0.85 for an operator cause; an equipment cause
    has confidence 0.75 or 0.8. No other cause type is produced. *)
Theorem rootCause_confidence_capped
    (station : StationData.t) (shiftData : list ShiftData.t)
    (cause : RootCause.t) :
  In cause (analyzeRootCauses station shiftData) ->
  match RootCause.type cause with
  | cause_shift => (0.9 <? RootCause.confidence cause) = false
  | cause_operator => (0.85 <? RootCause.confidence cause) = false
  | cause_equipment =>
      RootCause.confidence cause = 0.75 \/ RootCause.confidence cause = 0.8
  | cause_material | cause_process => False
  end.
Proof.
  destruct (analyzeRootCauses_shape station shiftData)
    as (b1 & b2 & y1 & y2 & Hshape & _).
  cbv zeta in Hshape. rewrite Hshape. clear Hshape.
  rewrite !in_app_iff.
  intros [H|[H|[H|H]]];
    match type of H with In _ (if ?b then _ else _) => destruct b end;
    simpl in H; try contradiction; destruct H as [<-|[]]; simpl;
    auto using Math_min_cap.
Qed.

Lemma rootCause_confidence_capped_witness :
  match RootCause.type (RootCause.mk cause_equipment 0.8) with
  | cause_shift =>
      (0.9 <? RootCause.confidence (RootCause.mk cause_equipment 0.8)) = false
  | cause_operator =>
      (0.85 <? RootCause.confidence (RootCause.mk cause_equipment 0.8)) = false
  | cause_equipment =>
      RootCause.confidence (RootCause.mk cause_equipment 0.8) = 0.75
      \/ RootCause.confidence (RootCause.mk cause_equipment 0.8) = 0.8
  | cause_material | cause_process => False
  end.
Proof.
  apply (rootCause_confidence_capped Inputs.weldingCell []
           (RootCause.mk cause_equipment 0.8)).
  vm_compute. auto.
Defined.

(** ** The recommendations of a finding *)

Lemma rec_id_inj (sid a b : string) :
  ("rec-" ++ sid ++ a)%string = ("rec-" ++ sid ++ b)%string -> a = b.
Proof.
  simpl. intros H. injection H as H.
  induction sid as [|c sid IH]; simpl in H; [exact H|].
  injection H as H. now apply IH.
Qed.

Ltac rec_ids_distinct :=
  repeat (apply List.NoDup_cons;
          [simpl;
           repeat (let H := fresh in
                   intros [H|H]; [apply rec_id_inj in H; discriminate|revert H]);
           intros []|]);
  apply List.NoDup_nil.

(** X3: A finding has at most three root causes and at most six
    recommendations, and the recommendations are numbered 1, 2, 3, ... in
    the order in which they are emitted. *)
Theorem recommendations_numbered_in_order
    (station : StationData.t) (shiftData : list ShiftData.t)
    (impactScore : number) :
  let rootCauses := analyzeRootCauses station shiftData in
  let recommendations :=
    generateRecommendations station rootCauses impactScore in
  (length rootCauses <= 3)%nat
  /\ (length recommendations <= 6)%nat
  /\ List.map Recommendation.priority recommendations
     = List.map JS.of_nat (seq 1 (length recommendations)).
Proof.
  cbv zeta.
  destruct (analyzeRootCauses_shape station shiftData)
    as (b1 & b2 & y1 & y2 & Hshape & Hex).
  cbv zeta in Hshape, Hex. rewrite Hshape. clear Hshape.
  destruct ((15 <? or_default (StationData.variance_percent station) 0)
            && (coefficientOfVariation station <? 10));
    destruct (60 <? or_default (StationData.total_downtime station) 0);
    destruct b1, b2; try discriminate Hex;
    unfold generateRecommendations; simpl fold_left;
    destruct (50 <? impactScore); simpl;
    (split; [lia|split; [lia|reflexivity]]).
Qed.

(** X4: Unless the slowness rule and the downtime rule both fire, the
    recommendation ids of a finding are pairwise distinct. *)
Theorem recommendation_ids_distinct
    (station : StationData.t) (shiftData : list ShiftData.t)
    (impactScore : number) :
  (15 <? or_default (StationData.variance_percent station) 0)
  && (coefficientOfVariation station <? 10)
  && (60 <? or_default (StationData.total_downtime station) 0) = false ->
  List.NoDup
    (List.map Recommendation.id
       (generateRecommendations station
          (analyzeRootCauses station shiftData) impactScore)).
Proof.
  intros Hboth.
  destruct (analyzeRootCauses_shape station shiftData)
    as (b1 & b2 & y1 & y2 & Hshape & Hex).
  cbv zeta in Hshape, Hex. rewrite Hshape. clear Hshape.
  destruct ((15 <? or_default (StationData.variance_percent station) 0)
            && (coefficientOfVariation station <? 10));
    destruct (60 <? or_default (StationData.total_downtime station) 0);
    try discriminate Hboth;
    destruct b1, b2; try discriminate Hex;
    unfold generateRecommendations; simpl fold_left;
    destruct (50 <? impactScore); simpl List.map;
    rec_ids_distinct.
Qed.

Lemma recommendation_ids_distinct_witness :
  List.NoDup
    (List.map Recommendation.id
       (generateRecommendations Inputs.erratic
          (analyzeRootCauses Inputs.erratic [])
          (calculateImpactScore Inputs.erratic [Inputs.erratic]))).
Proof.
  apply (recommendation_ids_distinct Inputs.erratic []
           (calculateImpactScore Inputs.erratic [Inputs.erratic])).
  vm_compute. reflexivity.
Defined.

(** The erratic station gets an operator cause and a downtime cause, and
    five recommendations with five ids. *)
Example erratic_station_recommendations :
  List.map
    (fun a =>
       (BottleneckAnalysis.impactScore a,
        List.map RootCause.type (BottleneckAnalysis.rootCauses a),
        List.map Recommendation.id (BottleneckAnalysis.recommendations a)))
    (analyzeBottlenecks [Inputs.erratic] [])
  = [(75, [cause_operator; cause_equipment],
      ["rec-ST005-operator"; "rec-ST005-training"; "rec-ST005-equipment";
       "rec-ST005-maintenance"; "rec-ST005-rebalance"])].
Proof. vm_compute. reflexivity. Qed.

Lemma recommend_keeps_no_rebalance station rootCauses recs p :
  ~ In rec_rebalance (List.map Recommendation.type recs) ->
  ~ In rec_rebalance
      (List.map Recommendation.type
         (fst (fold_left (recommend station) rootCauses (recs, p)))).
Proof.
  revert recs p. induction rootCauses as [|c cs IH]; intros recs p Hno;
    [exact Hno|].
  change (fold_left (recommend station) (c :: cs) (recs, p))
    with (fold_left (recommend station) cs (recommend station (recs, p) c)).
  destruct (recommend station (recs, p) c) as [recs' p'] eqn:Hstep.
  apply IH. unfold recommend in Hstep.
  destruct (RootCause.type c); injection Hstep as <- _;
    rewrite ?List.map_app, ?in_app_iff; simpl; intuition discriminate.
Qed.

(** X5: Whatever the root causes, the recommendations are the cause-driven
    ones, none of which is a [rebalance], followed by one [rebalance]
    recommendation exactly when the impact score is above 50 (so never for
    a NaN score). *)
Theorem rebalance_iff_high_impact
    (station : StationData.t) (rootCauses : list RootCause.t)
    (impactScore : number) :
  exists earlier r,
    generateRecommendations station rootCauses impactScore
    = (earlier ++ (if 50 <? impactScore then [r] else []))%list
    /\ ~ In rec_rebalance (List.map Recommendation.type earlier)
    /\ Recommendation.type r = rec_rebalance
    /\ Recommendation.id r
       = ("rec-" ++ StationData.station_id station ++ "-rebalance")%string
    /\ Recommendation.expectedImprovement r = 15.
Proof.
  unfold generateRecommendations.
  destruct (fold_left (recommend station) rootCauses ([], 1))
    as [recs p] eqn:Hfold.
  assert (Hno : ~ In rec_rebalance (List.map Recommendation.type recs)).
  { replace recs
      with (fst (fold_left (recommend station) rootCauses ([], 1)))
      by now rewrite Hfold.
    apply recommend_keeps_no_rebalance. simpl. tauto. }
  eexists recs, _. split; [|split; [exact Hno|]].
  - destruct (50 <? impactScore); [reflexivity|].
    now rewrite app_nil_r.
  - repeat split.
Qed.

(** ** What the simulated changes can and cannot alter *)

(** X6: No change list alters the id, the name or the target cycle time of a
    station, and none adds or removes a station: the modified line has the
    stations of the input, in the same order. *)
Theorem changes_keep_station_identity
    (stations : list SimStation.t) (changes : list SimulationChange.t) :
  List.map SimStation.id (modifiedStations stations changes)
  = List.map SimStation.id stations
  /\ List.map SimStation.name (modifiedStations stations changes)
     = List.map SimStation.name stations
  /\ List.map SimStation.targetCycleTime (modifiedStations stations changes)
     = List.map SimStation.targetCycleTime stations.
Proof.
  unfold modifiedStations.
  induction stations as [|s l (IH1 & IH2 & IH3)]; simpl; [auto|].
  rewrite IH1, IH2, IH3, modifyStation_fold.
  destruct (fold_applyChange_identity s
              (List.filter
                 (fun c => String.eqb (SimulationChange.stationId c) (SimStation.id s))
                 changes) s) as (-> & -> & ->).
  auto.
Qed.

(** X7: A change has no effect on the line when it names a station that is
    not in the list, or when its type is [add_station] or
    [remove_station], for which [runSimulation] has no case: with only
    such changes the projected result is the baseline. *)
Theorem ineffective_changes_leave_baseline
    (stations : list SimStation.t) (changes : list SimulationChange.t) :
  Forall
    (fun c =>
       ~ In (SimulationChange.stationId c) (List.map SimStation.id stations)
       \/ SimulationChange.type c = add_station
       \/ SimulationChange.type c = remove_station)
    changes ->
  projected (runSimulation {| stations := stations; changes := changes |})
  = baseline (runSimulation {| stations := stations; changes := changes |}).
Proof.
  intros Hall. unfold runSimulation. simpl. f_equal.
  unfold modifiedStations.
  assert (Hid : forall s, In s stations -> modifyStation changes s = s).
  { intros s Hs. rewrite modifyStation_fold.
    assert (Hstep : forall cs m,
               Forall
                 (fun c =>
                    ~ In (SimulationChange.stationId c)
                        (List.map SimStation.id stations)
                    \/ SimulationChange.type c = add_station
                    \/ SimulationChange.type c = remove_station) cs ->
               fold_left (applyChange s)
                 (List.filter
                    (fun c =>
                       String.eqb (SimulationChange.stationId c) (SimStation.id s))
                    cs) m = m).
    { induction cs as [|c cs IH]; intros m Hcs; [reflexivity|].
      inversion Hcs as [|? ? Hc Hcs']; subst. simpl.
      destruct (String.eqb (SimulationChange.stationId c) (SimStation.id s))
        eqn:Heq; [|now apply IH].
      simpl. apply String.eqb_eq in Heq.
      destruct Hc as [Hc|[Hc|Hc]].
      - exfalso. apply Hc. rewrite Heq. now apply in_map.
      - unfold applyChange. rewrite Hc. now apply IH.
      - unfold applyChange. rewrite Hc. now apply IH. }
    now apply Hstep. }
  induction stations as [|s l IH]; simpl; [reflexivity|].
  rewrite Hid by now left. f_equal. apply IH.
  - rewrite List.Forall_forall in *. intros c Hc.
    destruct (Hall c Hc) as [H|H]; [left|now right].
    intros Hin. apply H. simpl. now right.
  - intros s' Hs'. apply Hid. now right.
Qed.

Lemma ineffective_changes_leave_baseline_witness :
  projected
    (runSimulation
       {| stations := [Inputs.cutting; Inputs.welding];
          changes := [Inputs.addTo "ST099" 2;
                      SimulationChange.mk remove_station "ST003" 1 ""] |})
  = baseline
      (runSimulation
         {| stations := [Inputs.cutting; Inputs.welding];
            changes := [Inputs.addTo "ST099" 2;
                        SimulationChange.mk remove_station "ST003" 1 ""] |}).
Proof.
  apply (ineffective_changes_leave_baseline
           [Inputs.cutting; Inputs.welding]
           [Inputs.addTo "ST099" 2;
            SimulationChange.mk remove_station "ST003" 1 ""]).
  constructor; [|constructor; [|constructor]].
  - left. simpl. intros [H|[H|[]]]; discriminate.
  - right. right. reflexivity.
Defined.



(** ** The bottleneck and the throughput *)

Lemma pickBottleneck_stays_chosen l bid m :
  exists bid' m', fold_left pickBottleneck l (Some bid, m) = (Some bid', m').
Proof.
  revert bid m. induction l as [|s l IH]; intros bid m; simpl; [eauto|].
  destruct (m <? SimStation.avgCycleTime s); apply IH.
Qed.

Lemma findBottleneck_none (stations : list SimStation.t) :
  (fst (findBottleneck stations) = None
   <-> Forall (fun s => (0 <? SimStation.avgCycleTime s) = false) stations)
  /\ (fst (findBottleneck stations) = None ->
      findBottleneck stations = (None, 0)).
Proof.
  unfold findBottleneck.
  induction stations as [|s l [IH1 IH2]]; simpl.
  - split; [split; [constructor|reflexivity]|reflexivity].
  - destruct (0 <? SimStation.avgCycleTime s) eqn:Hs.
    + destruct (pickBottleneck_stays_chosen l (SimStation.id s)
                  (SimStation.avgCycleTime s)) as (b & m & ->). simpl.
      split; [split|]; try discriminate.
      intros H. inversion H; congruence.
    + split; [|exact IH2].
      rewrite IH1. split; [now constructor|now inversion 1].
Qed.

(** X9: The bottleneck station is null exactly when no station has an average
    cycle time above 0: an empty line, or averages that are 0, negative or
    NaN. *)
Theorem no_bottleneck_iff_no_positive_station (stations : list SimStation.t) :
  SimulationResult.bottleneckStation (calculateLineMetrics stations) = None
  <-> Forall (fun s => (0 <? SimStation.avgCycleTime s) = false) stations.
Proof.
  rewrite bottleneckStation_findBottleneck. apply findBottleneck_none.
Qed.

(** X10: On a line without a station of positive cycle time the bottleneck
    cycle time stays at its initial 0 and the throughput is
    [floor(3600 / 0)], Infinity. *)
Theorem no_positive_station_infinite_throughput
    (stations : list SimStation.t) :
  Forall (fun s => (0 <? SimStation.avgCycleTime s) = false) stations ->
  SimulationResult.throughputPerHour (calculateLineMetrics stations)
  = infinity
  /\ snd (findBottleneck stations) = 0.
Proof.
  intros Hall.
  destruct (findBottleneck_none stations) as [Hiff Hnone].
  apply Hiff in Hall. specialize (Hnone Hall).
  unfold calculateLineMetrics. rewrite Hnone.
  destruct (fold_left (accumulateUtilization 0) stations (∅, 0)).
  split; vm_compute; reflexivity.
Qed.

Lemma no_positive_station_infinite_throughput_witness :
  SimulationResult.throughputPerHour
    (calculateLineMetrics
       [SimStation.mk "ST001" "Cutting" 60 0 1;
        SimStation.mk "ST002" "Drilling" 45 nan 1])
  = infinity
  /\ snd (findBottleneck
            [SimStation.mk "ST001" "Cutting" 60 0 1;
             SimStation.mk "ST002" "Drilling" 45 nan 1]) = 0.
Proof.
  apply (no_positive_station_infinite_throughput
           [SimStation.mk "ST001" "Cutting" 60 0 1;
            SimStation.mk "ST002" "Drilling" 45 nan 1]).
  repeat constructor.
Defined.

Lemma positive_lt_le (x y : number) :
  (0 <? x) = true -> (0 <? y) = true -> (x <? y) = true -> (x <=? y) = true.
Proof.
  intros Hx Hy. apply positive_spec in Hx, Hy.
  rewrite ltb_spec, leb_spec. unfold SFltb, SFleb.
  destruct (Prim2SF x) as [[]|[]| |[] m e]; try contradiction;
    destruct (Prim2SF y) as [[]|[]| |[] m0 e0]; try contradiction;
    simpl; try discriminate; try reflexivity.
  destruct (e ?= e0)%Z; try discriminate; try reflexivity.
  now destruct (Pos.compare_cont Eq m m0).
Qed.

Lemma positive_le_refl (x : number) : (0 <? x) = true -> (x <=? x) = true.
Proof.
  intros Hx. apply positive_spec in Hx. rewrite leb_spec. unfold SFleb.
  destruct (Prim2SF x) as [[]|[]| |[] ? ?]; try contradiction; simpl;
    [reflexivity|].
  now rewrite Z.compare_refl, Pos.compare_cont_refl.
Qed.

(** On a line of positive cycle times the loop ends on a station of the
    line, holding its id and its cycle time, and no station is slower. *)
Lemma findBottleneck_positive (stations : list SimStation.t) :
  stations <> [] ->
  Forall (fun s => (0 <? SimStation.avgCycleTime s) = true) stations ->
  exists b,
    In b stations
    /\ findBottleneck stations
       = (Some (SimStation.id b), SimStation.avgCycleTime b)
    /\ Forall
         (fun s =>
            (SimStation.avgCycleTime s <=? SimStation.avgCycleTime b) = true)
         stations.
Proof.
  intros Hne Hall. destruct stations as [|s0 l]; [contradiction|].
  inversion Hall as [|? ? H0 Hl]; subst.
  unfold findBottleneck. simpl. rewrite H0.
  destruct (findBottleneck_from l (SimStation.id s0)
              (SimStation.avgCycleTime s0) H0 Hl)
    as [[Hfold Hle]|(pre & c & post & Hsplit & Hfold & Hlt & Hpre & Hpost)].
  - exists s0. split; [now left|]. split; [exact Hfold|].
    constructor; [now apply positive_le_refl|exact Hle].
  - assert (Hc : (0 <? SimStation.avgCycleTime c) = true).
    { rewrite Hsplit in Hl. apply Forall_app in Hl as [_ Hl].
      now inversion Hl. }
    exists c. split; [right; rewrite Hsplit; apply in_elt|].
    split; [exact Hfold|].
    constructor; [now apply positive_lt_le|].
    rewrite Hsplit in Hl |- *. apply Forall_app in Hl as [Hl1 Hl2].
    apply Forall_app. split.
    + rewrite List.Forall_forall in *. intros s Hs.
      apply positive_lt_le; auto.
    + constructor; [now apply positive_le_refl|exact Hpost].
Qed.

(** X11: On a non-empty line of positive cycle times the throughput per hour
    is [floor(3600 / t)], where [t] is the cycle time of the bottleneck
    station, the greatest of the line. *)
Theorem throughput_set_by_slowest_station (stations : list SimStation.t) :
  stations <> [] ->
  Forall (fun s => (0 <? SimStation.avgCycleTime s) = true) stations ->
  exists b,
    In b stations
    /\ SimulationResult.bottleneckStation (calculateLineMetrics stations)
       = Some (SimStation.id b)
    /\ Forall
         (fun s =>
            (SimStation.avgCycleTime s <=? SimStation.avgCycleTime b) = true)
         stations
    /\ SimulationResult.throughputPerHour (calculateLineMetrics stations)
       = Math_floor (3600 / SimStation.avgCycleTime b).
Proof.
  intros Hne Hall.
  destruct (findBottleneck_positive stations Hne Hall)
    as (b & Hin & Hfind & Hmax).
  exists b. split; [exact Hin|].
  rewrite bottleneckStation_findBottleneck, Hfind. split; [reflexivity|].
  split; [exact Hmax|].
  unfold calculateLineMetrics. rewrite Hfind.
  now destruct (fold_left (accumulateUtilization _) stations (∅, 0)).
Qed.

Lemma throughput_set_by_slowest_station_witness :
  exists b,
    In b [Inputs.cutting; Inputs.welding; Inputs.assembly]
    /\ SimulationResult.bottleneckStation
         (calculateLineMetrics
            [Inputs.cutting; Inputs.welding; Inputs.assembly])
       = Some (SimStation.id b)
    /\ Forall
         (fun s =>
            (SimStation.avgCycleTime s <=? SimStation.avgCycleTime b) = true)
         [Inputs.cutting; Inputs.welding; Inputs.assembly]
    /\ SimulationResult.throughputPerHour
         (calculateLineMetrics
            [Inputs.cutting; Inputs.welding; Inputs.assembly])
       = Math_floor (3600 / SimStation.avgCycleTime b).
Proof.
  apply (throughput_set_by_slowest_station
           [Inputs.cutting; Inputs.welding; Inputs.assembly]).
  - discriminate.
  - repeat constructor.
Defined.

(** ** The utilization map *)

Lemma accumulateUtilization_entries mx l m0 w0 k u :
  fst (fold_left (accumulateUtilization mx) l (m0, w0)) !! k = Some u ->
  m0 !! k = Some u
  \/ exists s,
       In s l /\ SimStation.id s = k
       /\ u = Math_min 1 (SimStation.avgCycleTime s / mx).
Proof.
  revert m0 w0. induction l as [|s l IH]; intros m0 w0; simpl; [auto|].
  intros H. apply IH in H as [H|(s' & Hin & Hid & Hu)].
  - destruct (String.eqb (SimStation.id s) "__proto__"); [now left|].
    apply lookup_insert_Some in H as [[Hk Hv]|[_ H]]; [|now left].
    right. exists s. auto.
  - right. exists s'. auto.
Qed.

(** X12: Every entry of [utilizationByStation] is keyed by the id of a station
    of the line and holds [min(1, cycle time / bottleneck cycle time)] of
    such a station; no utilization is above 1. *)
Theorem utilization_entries (stations : list SimStation.t)
    (k : string) (u : number) :
  SimulationResult.utilizationByStation (calculateLineMetrics stations) !! k
  = Some u ->
  (1 <? u) = false
  /\ exists s,
       In s stations /\ SimStation.id s = k
       /\ u = Math_min 1
                (SimStation.avgCycleTime s / snd (findBottleneck stations)).
Proof.
  unfold calculateLineMetrics.
  destruct (findBottleneck stations) as [b mx]. simpl snd.
  destruct (fold_left (accumulateUtilization mx) stations (∅, 0))
    as [m w] eqn:Hfold.
  simpl. intros H.
  assert (H' : fst (fold_left (accumulateUtilization mx) stations (∅, 0)) !! k
               = Some u) by now rewrite Hfold.
  apply accumulateUtilization_entries in H' as [H'|(s & Hin & Hid & Hu)].
  - now rewrite lookup_empty in H'.
  - split; [rewrite Hu; apply Math_min_cap|]. exists s. auto.
Qed.

Lemma utilization_entries_witness :
  (1 <? 0.7) = false
  /\ exists s,
       In s [Inputs.cutting; Inputs.welding] /\ SimStation.id s = "ST001"
       /\ 0.7 = Math_min 1
                  (SimStation.avgCycleTime s
                   / snd (findBottleneck [Inputs.cutting; Inputs.welding])).
Proof.
  apply (utilization_entries [Inputs.cutting; Inputs.welding] "ST001" 0.7).
  vm_compute. reflexivity.
Defined.

(** ** Strings built around a key *)

Lemma list_ascii_of_string_app (a b : string) :
  list_ascii_of_string (a ++ b)
  = (list_ascii_of_string a ++ list_ascii_of_string b)%list.
Proof. induction a as [|c a IH]; simpl; [reflexivity|now rewrite IH]. Qed.

Lemma list_ascii_of_string_inj (a b : string) :
  list_ascii_of_string a = list_ascii_of_string b -> a = b.
Proof.
  intros H. rewrite <- (string_of_list_ascii_of_string a),
    <- (string_of_list_ascii_of_string b). now rewrite H.
Qed.

Lemma string_app_inv_tail (a b s : string) :
  (a ++ s)%string = (b ++ s)%string -> a = b.
Proof.
  intros H. apply list_ascii_of_string_inj.
  apply (f_equal list_ascii_of_string) in H.
  rewrite !list_ascii_of_string_app in H. now apply app_inv_tail in H.
Qed.

(** The two kinds of prediction id never coincide, and each determines the
    station id it was built from. *)
Lemma pred_id_delay_inj (a b : string) :
  ("pred-" ++ a ++ "-delay")%string = ("pred-" ++ b ++ "-delay")%string ->
  a = b.
Proof.
  intros H. apply (f_equal (JS.drop 5)) in H.
  apply string_app_inv_tail with "-delay"%string. exact H.
Qed.

Lemma pred_id_maintenance_inj (a b : string) :
  ("pred-" ++ a ++ "-maintenance")%string
  = ("pred-" ++ b ++ "-maintenance")%string ->
  a = b.
Proof.
  intros H. apply (f_equal (JS.drop 5)) in H.
  apply string_app_inv_tail with "-maintenance"%string. exact H.
Qed.

Lemma pred_id_kinds_differ (a b : string) :
  ("pred-" ++ a ++ "-delay")%string <> ("pred-" ++ b ++ "-maintenance")%string.
Proof.
  intros H. apply (f_equal (JS.drop 5)) in H.
  change ((a ++ "-delay")%string = (b ++ "-maintenance")%string) in H.
  apply (f_equal list_ascii_of_string) in H.
  rewrite !list_ascii_of_string_app in H.
  apply (f_equal (@rev ascii)) in H. rewrite !rev_app_distr in H.
  simpl in H. discriminate.
Qed.

(** ** Objects used as maps *)

Section ObjectFacts.
Context {V : Type}.
Implicit Types (o : list (string * V)) (k : string) (v : V).

Lemma lookup_set o k v k' :
  JSObject.lookup (JSObject.set o k v) k'
  = if String.eqb k k' then Some v else JSObject.lookup o k'.
Proof.
  induction o as [|[k0 v0] o IH]; simpl.
  - reflexivity.
  - destruct (String.eqb k0 k) eqn:H0; simpl.
    + apply String.eqb_eq in H0. subst k0. now destruct (String.eqb k k').
    + rewrite IH. destruct (String.eqb k0 k') eqn:H1; [|reflexivity].
      apply String.eqb_eq in H1. subst k'. rewrite String.eqb_sym, H0.
      reflexivity.
Qed.

Lemma keys_set o k v k' :
  In k' (List.map fst (JSObject.set o k v))
  <-> k' = k \/ In k' (List.map fst o).
Proof.
  induction o as [|[k0 v0] o IH]; simpl.
  - intuition.
  - destruct (String.eqb k0 k) eqn:H0; simpl.
    + apply String.eqb_eq in H0. subst k0. intuition.
    + rewrite IH. intuition.
Qed.

Lemma keys_set_NoDup o k v :
  List.NoDup (List.map fst o) ->
  List.NoDup (List.map fst (JSObject.set o k v)).
Proof.
  induction o as [|[k0 v0] o IH]; simpl; intros Hnd.
  - constructor; [tauto|constructor].
  - inversion Hnd as [|? ? Hnotin Hnd']; subst.
    destruct (String.eqb k0 k) eqn:H0; simpl.
    + apply String.eqb_eq in H0. subst k0. now constructor.
    + constructor; [|now apply IH].
      rewrite keys_set. intros [->|H]; [|contradiction].
      now rewrite String.eqb_refl in H0.
Qed.

Lemma lookup_of_In o k v :
  List.NoDup (List.map fst o) -> In (k, v) o ->
  JSObject.lookup o k = Some v.
Proof.
  induction o as [|[k0 v0] o IH]; simpl; intros Hnd Hin; [contradiction|].
  inversion Hnd as [|? ? Hnotin Hnd']; subst.
  destruct Hin as [Heq|Hin].
  - injection Heq as -> ->. now rewrite String.eqb_refl.
  - destruct (String.eqb k0 k) eqn:H0; [|now apply IH].
    apply String.eqb_eq in H0. subst k0. exfalso. apply Hnotin.
    change k with (fst (k, v)). now apply in_map.
Qed.

Lemma insert_index_perm (e : Z * (string * V)) l :
  Permutation (JSObject.insert_index e l) (e :: l).
Proof.
  induction l as [|e' l IH]; simpl; [apply Permutation_refl|].
  destruct (fst e <=? fst e')%Z; [apply Permutation_refl|].
  apply Permutation_trans with (e' :: e :: l);
    [now apply perm_skip|apply perm_swap].
Qed.

(** [Object.entries] lists every own property once. *)
Lemma entries_perm o : Permutation (JSObject.entries o) o.
Proof.
  unfold JSObject.entries.
  set (f := fun kv : string * V =>
              match JSObject.array_index (fst kv) with
              | Some z => [(z, kv)]
              | None => []
              end).
  set (g := fun kv : string * V =>
              match JSObject.array_index (fst kv) with
              | Some _ => false
              | None => true
              end).
  apply Permutation_trans
    with (List.map snd (flat_map f o) ++ List.filter g o)%list.
  - apply Permutation_app_tail, Permutation_map.
    induction (flat_map f o) as [|e l IH]; simpl; [apply perm_nil|].
    apply Permutation_trans with (e :: fold_right JSObject.insert_index [] l);
      [apply insert_index_perm|now apply perm_skip].
  - induction o as [|kv o IH]; simpl; [apply perm_nil|].
    unfold f at 1, g at 1.
    destruct (JSObject.array_index (fst kv)); simpl.
    + now apply perm_skip.
    + apply Permutation_sym, Permutation_cons_app, Permutation_sym, IH.
Qed.

End ObjectFacts.

(** ** The prediction engine *)

Section PredictionFacts.
Variable Math_pow : number -> number -> number.

Lemma groupByStation_spec trendData acc byStation :
  groupByStation trendData acc = Returns byStation ->
  List.NoDup (List.map fst acc) ->
  List.NoDup (List.map fst byStation)
  /\ forall k vs,
       JSObject.lookup byStation k = Some vs ->
       vs = ((match JSObject.lookup acc k with Some x => x | None => [] end)
             ++ List.map TrendDataPoint.value
                  (List.filter
                     (fun pt => String.eqb (TrendDataPoint.station_id pt) k)
                     trendData))%list.
Proof.
  revert acc. induction trendData as [|pt rest IH]; intros acc; simpl.
  - intros [= <-] Hnd. split; [exact Hnd|].
    intros k vs ->. now rewrite app_nil_r.
  - destruct (JSObject.is_inherited (TrendDataPoint.station_id pt));
      [discriminate|].
    intros Hret Hnd.
    destruct (IH _ Hret (keys_set_NoDup _ _ _ Hnd)) as [Hnd' Hvals].
    split; [exact Hnd'|].
    intros k vs Hk. rewrite (Hvals k vs Hk), lookup_set.
    destruct (String.eqb (TrendDataPoint.station_id pt) k) eqn:Heq; simpl.
    + apply String.eqb_eq in Heq. subst k. now rewrite <- app_assoc.
    + reflexivity.
Qed.

Lemma groupByStation_throws trendData acc :
  groupByStation trendData acc = ThrowsTypeError
  <-> existsb (fun pt => JSObject.is_inherited (TrendDataPoint.station_id pt))
        trendData = true.
Proof.
  revert acc. induction trendData as [|pt rest IH]; intros acc; simpl.
  - split; discriminate.
  - destruct (JSObject.is_inherited (TrendDataPoint.station_id pt)); simpl;
      [tauto|apply IH].
Qed.

Lemma predictStation_In now currentBottlenecks k vs p :
  In p (predictStation Math_pow now currentBottlenecks (k, vs)) ->
  (10 <= length vs)%nat
  /\ Prediction.stationId p = k
  /\ ((Prediction.type p = pred_delay
       /\ Prediction.id p = ("pred-" ++ k ++ "-delay")%string
       /\ (0.85 <? Prediction.confidence p) = false
       /\ Prediction.predictedTime p = JSObject.TimeClip (now + 14400000))
      \/ (Prediction.type p = pred_maintenance_needed
          /\ Prediction.id p = ("pred-" ++ k ++ "-maintenance")%string
          /\ Prediction.confidence p = 0.7
          /\ Prediction.predictedTime p = JSObject.TimeClip (now + 86400000))).
Proof.
  unfold predictStation.
  destruct (length vs <? 10)%nat eqn:Hlen; [contradiction|].
  apply Nat.ltb_ge in Hlen. cbv zeta. rewrite in_app_iff.
  intros [H|H];
    match type of H with In _ (if ?b then _ else _) => destruct b end;
    try contradiction; destruct H as [<-|[]]; simpl;
    (split; [exact Hlen|split; [reflexivity|]]).
  - left. repeat split. apply Math_min_cap.
  - right. repeat split.
Qed.

Lemma predictStation_ids now currentBottlenecks k vs :
  List.NoDup
    (List.map Prediction.id
       (predictStation Math_pow now currentBottlenecks (k, vs))).
Proof.
  unfold predictStation.
  destruct (length vs <? 10)%nat; [constructor|]. cbv zeta.
  destruct (_ && _), (_ <? calculateVariance _ _); simpl;
    repeat constructor; simpl; try tauto.
  intros [H|[]]. symmetry in H. now apply pred_id_kinds_differ in H.
Qed.

Lemma predictions_ids_NoDup now currentBottlenecks entries :
  List.NoDup (List.map fst entries) ->
  List.NoDup
    (List.map Prediction.id
       (flat_map (predictStation Math_pow now currentBottlenecks) entries)).
Proof.
  induction entries as [|[k vs] es IH]; simpl; intros Hnd; [constructor|].
  inversion Hnd as [|? ? Hnotin Hnd']; subst.
  rewrite List.map_app.
  apply List.NoDup_app; [apply predictStation_ids|now apply IH|].
  intros i Hi Hi'.
  apply in_map_iff in Hi as (p & <- & Hp).
  apply in_map_iff in Hi' as (p' & Hid & Hp').
  apply in_flat_map in Hp' as ([k' vs'] & Hin & Hp').
  apply predictStation_In in Hp as (_ & _ & Hp).
  apply predictStation_In in Hp' as (_ & _ & Hp').
  assert (Hk : k' <> k).
  { intros ->. apply Hnotin. change k with (fst (k, vs')). now apply in_map. }
  destruct Hp as [(_ & Hp & _)|(_ & Hp & _)],
           Hp' as [(_ & Hp' & _)|(_ & Hp' & _)];
    rewrite Hp, Hp' in Hid.
  - now apply pred_id_delay_inj in Hid.
  - symmetry in Hid. now apply pred_id_kinds_differ in Hid.
  - now apply pred_id_kinds_differ in Hid.
  - now apply pred_id_maintenance_inj in Hid.
Qed.

End PredictionFacts.

(** X13: A station gets a prediction only when the trend data holds at least
    ten points for it. *)
Theorem predictions_need_ten_samples
    (Math_pow : number -> number -> number) (now : number)
    (trendData : list TrendDataPoint.t)
    (currentBottlenecks : list BottleneckAnalysis.t)
    (predictions : list Prediction.t) (p : Prediction.t) :
  generatePredictions Math_pow now trendData currentBottlenecks
  = Returns predictions ->
  In p predictions ->
  (10 <= length
           (List.filter
              (fun pt =>
                 String.eqb (TrendDataPoint.station_id pt) (Prediction.stationId p))
              trendData))%nat.
Proof.
  unfold generatePredictions.
  destruct (groupByStation trendData []) as [byStation|] eqn:Hgroup;
    [|discriminate].
  intros [= <-] Hp.
  destruct (groupByStation_spec _ _ _ Hgroup (List.NoDup_nil _))
    as [Hnd Hvals].
  apply in_flat_map in Hp as ([k vs] & Hin & Hp).
  apply predictStation_In in Hp as (Hlen & -> & _).
  apply (Permutation_in _ (entries_perm byStation)) in Hin.
  pose proof (Hvals k vs (lookup_of_In _ _ _ Hnd Hin)) as Hvs.
  simpl in Hvs. subst vs. now rewrite length_map in Hlen.
Qed.

Lemma predictions_need_ten_samples_witness :
  (10 <= length
           (List.filter
              (fun pt => String.eqb (TrendDataPoint.station_id pt) "ST003")
              Inputs.risingTrend))%nat.
Proof.
  apply (predictions_need_ten_samples Inputs.power 1730000000000
           Inputs.risingTrend [] Inputs.risingPredictions
           (Prediction.mk "pred-ST003-delay" pred_delay "ST003" 1730014400000
              0.85
              "ST003 showing deteriorating trend - expect delays within 4 hours"
              ["Monitor station closely"; "Prepare backup operators";
               "Check equipment status"]%string)).
  - vm_compute. reflexivity.
  - left. reflexivity.
Defined.

(** X14: A prediction is either a delay, with id [pred-<station>-delay], a
    confidence that is not above 0.85 and a time four hours after [now], or
    a maintenance need, with id [pred-<station>-maintenance], confidence 0.7
    and a time twenty-four hours after [now]. *)
Theorem prediction_kinds
    (Math_pow : number -> number -> number) (now : number)
    (trendData : list TrendDataPoint.t)
    (currentBottlenecks : list BottleneckAnalysis.t)
    (predictions : list Prediction.t) (p : Prediction.t) :
  generatePredictions Math_pow now trendData currentBottlenecks
  = Returns predictions ->
  In p predictions ->
  (Prediction.type p = pred_delay
   /\ Prediction.id p = ("pred-" ++ Prediction.stationId p ++ "-delay")%string
   /\ (0.85 <? Prediction.confidence p) = false
   /\ Prediction.predictedTime p = JSObject.TimeClip (now + 14400000))
  \/ (Prediction.type p = pred_maintenance_needed
      /\ Prediction.id p
         = ("pred-" ++ Prediction.stationId p ++ "-maintenance")%string
      /\ Prediction.confidence p = 0.7
      /\ Prediction.predictedTime p = JSObject.TimeClip (now + 86400000)).
Proof.
  unfold generatePredictions.
  destruct (groupByStation trendData []) as [byStation|]; [|discriminate].
  intros [= <-] Hp.
  apply in_flat_map in Hp as ([k vs] & _ & Hp).
  apply predictStation_In in Hp as (_ & -> & H). exact H.
Qed.

Lemma prediction_kinds_witness :
  let p := Prediction.mk "pred-ST003-maintenance" pred_maintenance_needed
             "ST003" 1730086400000 0.7
             "Increased variability at ST003 suggests equipment wear"
             ["Schedule preventive maintenance"; "Inspect critical components";
              "Prepare spare parts"]%string in
  (Prediction.type p = pred_delay
   /\ Prediction.id p = ("pred-" ++ Prediction.stationId p ++ "-delay")%string
   /\ (0.85 <? Prediction.confidence p) = false
   /\ Prediction.predictedTime p = JSObject.TimeClip (1730000000000 + 14400000))
  \/ (Prediction.type p = pred_maintenance_needed
      /\ Prediction.id p
         = ("pred-" ++ Prediction.stationId p ++ "-maintenance")%string
      /\ Prediction.confidence p = 0.7
      /\ Prediction.predictedTime p
         = JSObject.TimeClip (1730000000000 + 86400000)).
Proof.
  apply (prediction_kinds Inputs.power 1730000000000 Inputs.risingTrend []
           Inputs.risingPredictions).
  - vm_compute. reflexivity.
  - right. left. reflexivity.
Defined.

(** X15: The ids of the predictions of one call are pairwise distinct. *)
Theorem prediction_ids_distinct
    (Math_pow : number -> number -> number) (now : number)
    (trendData : list TrendDataPoint.t)
    (currentBottlenecks : list BottleneckAnalysis.t)
    (predictions : list Prediction.t) :
  generatePredictions Math_pow now trendData currentBottlenecks
  = Returns predictions ->
  List.NoDup (List.map Prediction.id predictions).
Proof.
  unfold generatePredictions.
  destruct (groupByStation trendData []) as [byStation|] eqn:Hgroup;
    [|discriminate].
  intros [= <-].
  destruct (groupByStation_spec _ _ _ Hgroup (List.NoDup_nil _)) as [Hnd _].
  apply predictions_ids_NoDup.
  apply (Permutation_NoDup
           (Permutation_map fst (Permutation_sym (entries_perm byStation)))).
  exact Hnd.
Qed.

Lemma prediction_ids_distinct_witness :
  List.NoDup (List.map Prediction.id Inputs.risingPredictions).
Proof.
  apply (prediction_ids_distinct Inputs.power 1730000000000
           Inputs.risingTrend []).
  vm_compute. reflexivity.
Defined.

(** X16: [generatePredictions] throws a [TypeError] exactly when some point of
    the trend data has a station id that names a property inherited from
    [Object.prototype] (such as [constructor] or [toString]); on any other
    input it returns. *)
Theorem generatePredictions_throws_iff
    (Math_pow : number -> number -> number) (now : number)
    (trendData : list TrendDataPoint.t)
    (currentBottlenecks : list BottleneckAnalysis.t) :
  generatePredictions Math_pow now trendData currentBottlenecks
  = ThrowsTypeError
  <-> exists pt,
        In pt trendData
        /\ In (TrendDataPoint.station_id pt) JSObject.inherited_keys.
Proof.
  unfold generatePredictions.
  pose proof (groupByStation_throws trendData []) as Hthrows.
  destruct (groupByStation trendData []) as [byStation|].
  - split; [discriminate|].
    intros (pt & Hin & Hkey).
    assert (H : existsb
                  (fun pt => JSObject.is_inherited (TrendDataPoint.station_id pt))
                  trendData = true).
    { apply existsb_exists. exists pt. split; [exact Hin|].
      unfold JSObject.is_inherited. apply existsb_exists.
      exists (TrendDataPoint.station_id pt).
      split; [exact Hkey|apply String.eqb_refl]. }
    apply Hthrows in H. discriminate.
  - split; [|reflexivity]. intros _.
    destruct Hthrows as [Hthrows _]. specialize (Hthrows eq_refl).
    apply existsb_exists in Hthrows as (pt & Hin & Hkey).
    exists pt. split; [exact Hin|].
    unfold JSObject.is_inherited in Hkey.
    apply existsb_exists in Hkey as (k & Hk & Heq).
    apply String.eqb_eq in Heq. now subst k.
Qed.

(** ** The query agent: time ranges *)

Lemma all_digits_cons (c : ascii) (s : string) :
  JSObject.all_digits (String c s)
  = RegExp.is_digit c && JSObject.all_digits s.
Proof. reflexivity. Qed.

Lemma take_digits_spec (s : string) :
  JSObject.all_digits (fst (RegExp.take_digits s)) = true
  /\ s = (fst (RegExp.take_digits s) ++ snd (RegExp.take_digits s))%string.
Proof.
  induction s as [|c s [IH1 IH2]]; [auto|].
  cbn [RegExp.take_digits].
  destruct (RegExp.is_digit c) eqn:Hc; [|auto].
  destruct (RegExp.take_digits s) as [ds rest]. cbn [fst snd] in *.
  rewrite all_digits_cons, Hc, IH1. split; [reflexivity|].
  now rewrite IH2 at 1.
Qed.

(** Digits followed by a character that is not a digit are read back as
    they are. *)
Lemma take_digits_app (num : string) (c : ascii) (rest : string) :
  JSObject.all_digits num = true ->
  RegExp.is_digit c = false ->
  RegExp.take_digits (num ++ String c rest) = (num, String c rest).
Proof.
  intros Hnum Hc. induction num as [|d num IH].
  - change (EmptyString ++ String c rest)%string with (String c rest).
    cbn [RegExp.take_digits]. now rewrite Hc.
  - rewrite all_digits_cons in Hnum. apply andb_prop in Hnum as [Hd Hnum].
    change (String d num ++ String c rest)%string
      with (String d (num ++ String c rest)).
    cbn [RegExp.take_digits]. now rewrite Hd, (IH Hnum).
Qed.

Lemma upper_of_lower (a b : ascii) :
  is_lower_letter a = true ->
  Ascii.eqb (RegExp.upper a) (RegExp.upper b) = true ->
  lowerCaseChar b = a.
Proof.
  intros Ha Heq. apply Ascii.eqb_eq in Heq.
  unfold is_lower_letter in Ha.
  unfold RegExp.upper in Heq. cbv zeta in Heq. rewrite Ha in Heq.
  apply andb_prop in Ha as [Ha1 Ha2]. apply Nat.leb_le in Ha1, Ha2.
  pose proof (nat_ascii_bounded b) as Hb.
  apply (f_equal nat_of_ascii) in Heq.
  rewrite nat_ascii_embedding in Heq by lia.
  unfold lowerCaseChar. cbv zeta.
  destruct ((97 <=? nat_of_ascii b)%nat && (nat_of_ascii b <=? 122)%nat)
    eqn:Hlow.
  - apply andb_prop in Hlow as [H1 H2]. apply Nat.leb_le in H1, H2.
    rewrite nat_ascii_embedding in Heq by lia.
    replace ((65 <=? nat_of_ascii b)%nat && (nat_of_ascii b <=? 90)%nat)
      with false
      by (symmetry; apply andb_false_iff; right; apply Nat.leb_gt; lia).
    replace ((192 <=? nat_of_ascii b)%nat && (nat_of_ascii b <=? 222)%nat)
      with false
      by (symmetry; apply andb_false_iff; left; apply Nat.leb_gt; lia).
    cbn [andb].
    rewrite <- (ascii_nat_embedding a), <- (ascii_nat_embedding b).
    f_equal. lia.
  - destruct ((224 <=? nat_of_ascii b)%nat && (nat_of_ascii b <=? 254)%nat
              && negb (nat_of_ascii b =? 247)%nat) eqn:Hlatin.
    + apply andb_prop in Hlatin as [Hl _]. apply andb_prop in Hl as [H1 H2].
      apply Nat.leb_le in H1, H2.
      rewrite nat_ascii_embedding in Heq by lia. lia.
    + replace ((65 <=? nat_of_ascii b)%nat && (nat_of_ascii b <=? 90)%nat)
        with true
        by (symmetry; apply andb_true_intro; split; apply Nat.leb_le; lia).
      rewrite <- (ascii_nat_embedding a). f_equal. lia.
Qed.

Lemma literal_ci_lower (p : string) :
  forallb is_lower_letter (list_ascii_of_string p) = true ->
  forall s,
    RegExp.literal_ci p s = true ->
    toLowerCase (RegExp.take (String.length p) s) = p.
Proof.
  induction p as [|a p IH]; intros Hp s Hs; [reflexivity|].
  destruct s as [|b s]; [discriminate|].
  cbn [list_ascii_of_string forallb] in Hp. apply andb_prop in Hp as [Ha Hp].
  cbn [RegExp.literal_ci] in Hs. apply andb_prop in Hs as [Hab Hs].
  cbn [String.length RegExp.take toLowerCase].
  rewrite (IH Hp s Hs). f_equal. now apply upper_of_lower.
Qed.

Lemma literal_ci_take_app (p s x : string) :
  RegExp.literal_ci p s = true ->
  RegExp.literal_ci p (RegExp.take (String.length p) s ++ x) = true
  /\ RegExp.take (String.length p) (RegExp.take (String.length p) s ++ x)
     = RegExp.take (String.length p) s.
Proof.
  revert s. induction p as [|a p IH]; intros s Hs; [split; reflexivity|].
  destruct s as [|b s]; [discriminate|].
  cbn [RegExp.literal_ci] in Hs. apply andb_prop in Hs as [Hab Hs].
  destruct (IH s Hs) as [IH1 IH2].
  cbn [String.length RegExp.take].
  change (String b (RegExp.take (String.length p) s) ++ x)%string
    with (String b (RegExp.take (String.length p) s ++ x)).
  cbn [RegExp.literal_ci RegExp.take]. rewrite Hab, IH1, IH2. auto.
Qed.

Lemma literal_ci_other_first (a b c : ascii) (p q s x : string) :
  RegExp.literal_ci (String a p) (String c s) = true ->
  Ascii.eqb (RegExp.upper b) (RegExp.upper a) = false ->
  RegExp.literal_ci (String b q) (String c x) = false.
Proof.
  intros Hs Hba. cbn [RegExp.literal_ci] in Hs |- *.
  apply andb_prop in Hs as [Hac _]. apply Ascii.eqb_eq in Hac.
  now rewrite <- Hac, Hba.
Qed.

Lemma unit_at_cases (s u : string) :
  RegExp.unit_at s = Some u ->
  exists p,
    In p ["day"; "week"; "hour"; "month"]%string
    /\ RegExp.literal_ci p s = true
    /\ u = RegExp.take (String.length p) s.
Proof.
  unfold RegExp.unit_at.
  destruct (RegExp.alternative_ci ["day"; "week"; "hour"; "month"]%string s)
    as [p|] eqn:Halt; [|discriminate].
  intros Hu. exists p. injection Hu as Hu. symmetry in Hu.
  split; [|split; [|exact Hu]].
  - cbn [RegExp.alternative_ci] in Halt.
    repeat match type of Halt with
           | (if ?b then _ else _) = _ => destruct b
           end; try discriminate; injection Halt as <-; simpl; auto.
  - cbn [RegExp.alternative_ci] in Halt.
    repeat match type of Halt with
           | (if ?b then _ else _) = _ => destruct b eqn:?
           end; try discriminate; injection Halt as <-; assumption.
Qed.

Lemma unit_readback (p s x : string) :
  In p ["day"; "week"; "hour"; "month"]%string ->
  RegExp.literal_ci p s = true ->
  RegExp.unit_at (RegExp.take (String.length p) s ++ x)
  = Some (RegExp.take (String.length p) s).
Proof.
  intros Hin Hp.
  destruct (literal_ci_take_app p s x Hp) as [Ht1 Ht2].
  assert (Hu : exists c rest, RegExp.take (String.length p) s = String c rest).
  { destruct p as [|a p]; [simpl in Hin; intuition discriminate|].
    destruct s as [|c s]; [discriminate|].
    cbn [String.length RegExp.take]. eauto. }
  destruct Hu as (c & rest & Hu).
  remember (RegExp.take (String.length p) s) as t eqn:Ht. clear Ht.
  subst t.
  change (String c rest ++ x)%string with (String c (rest ++ x)) in *.
  unfold RegExp.unit_at. cbn [RegExp.alternative_ci].
  simpl in Hin. destruct Hin as [<-|[<-|[<-|[<-|[]]]]];
    try rewrite (literal_ci_other_first _ "d"%char _ _ "ay" _ _ Ht1 eq_refl);
    try rewrite (literal_ci_other_first _ "w"%char _ _ "eek" _ _ Ht1 eq_refl);
    try rewrite (literal_ci_other_first _ "h"%char _ _ "our" _ _ Ht1 eq_refl);
    rewrite Ht1; cbv beta iota; rewrite Ht2; reflexivity.
Qed.

(** What the unit capture holds, and that it is read back from the text
    it was taken from, whatever follows. *)
Lemma unit_at_spec (s u : string) :
  RegExp.unit_at s = Some u ->
  In (toLowerCase u) ["day"; "week"; "hour"; "month"]%string
  /\ (exists a rest, u = String a rest /\ RegExp.is_white a = false
                     /\ RegExp.is_digit a = false)
  /\ forall x, RegExp.unit_at (u ++ x) = Some u.
Proof.
  intros Hu. destruct (unit_at_cases s u Hu) as (p & Hin & Hp & ->).
  assert (Hlow : forallb is_lower_letter (list_ascii_of_string p) = true)
    by (simpl in Hin; intuition (subst; reflexivity)).
  split; [now rewrite (literal_ci_lower p Hlow s Hp)|].
  split; [|intros x; now apply unit_readback].
  destruct p as [|a p]; [simpl in Hin; intuition discriminate|].
  destruct s as [|c s]; [discriminate|].
  cbn [String.length RegExp.take]. exists c, (RegExp.take (String.length p) s).
  split; [reflexivity|].
  cbn [list_ascii_of_string forallb] in Hlow.
  apply andb_prop in Hlow as [Ha _].
  cbn [RegExp.literal_ci] in Hp. apply andb_prop in Hp as [Hac _].
  pose proof (upper_of_lower a c Ha Hac) as Hc.
  unfold lowerCaseChar in Hc. cbv zeta in Hc.
  unfold is_lower_letter in Ha. apply andb_prop in Ha as [Ha1 Ha2].
  apply Nat.leb_le in Ha1, Ha2.
  pose proof (nat_ascii_bounded c) as Hbound.
  assert (Hrange : (65 <= nat_of_ascii c)%nat).
  { destruct ((65 <=? nat_of_ascii c)%nat && (nat_of_ascii c <=? 90)%nat)
      eqn:Hup.
    - apply andb_prop in Hup as [H1 _]. now apply Nat.leb_le in H1.
    - destruct ((192 <=? nat_of_ascii c)%nat && (nat_of_ascii c <=? 222)%nat
                && negb (nat_of_ascii c =? 215)%nat) eqn:Hlatin.
      + apply andb_prop in Hlatin as [Hl _]. apply andb_prop in Hl as [H1 _].
        apply Nat.leb_le in H1. lia.
      + subst c. lia. }
  assert (Hnot160 : nat_of_ascii c <> 160%nat).
  { intros H160.
    replace ((65 <=? nat_of_ascii c)%nat && (nat_of_ascii c <=? 90)%nat)
      with false in Hc by now rewrite H160.
    replace ((192 <=? nat_of_ascii c)%nat && (nat_of_ascii c <=? 222)%nat
             && negb (nat_of_ascii c =? 215)%nat)
      with false in Hc by now rewrite H160.
    subst c. lia. }
  unfold RegExp.is_white, RegExp.is_digit. cbv zeta.
  split; repeat (apply orb_false_iff; split);
    try (apply andb_false_iff; first [left; apply Nat.leb_gt; lia
                                     |right; apply Nat.leb_gt; lia]);
    apply Nat.eqb_neq; lia.
Qed.

Lemma search_Some {A : Type} (at_ : string -> option A) (s : string) (r : A) :
  RegExp.search at_ s = Some r -> exists s', at_ s' = Some r.
Proof.
  induction s as [|c s IH]; simpl.
  - destruct (at_ EmptyString) eqn:H; [|discriminate].
    intros [= <-]. eauto.
  - destruct (at_ (String c s)) eqn:H; [intros [= <-]; eauto|exact IH].
Qed.

Lemma search_here {A : Type} (at_ : string -> option A) (s : string) (r : A) :
  at_ s = Some r -> RegExp.search at_ s = Some r.
Proof. intros H. destruct s; simpl; now rewrite H. Qed.

Lemma last_n_units_at_spec (s num unit : string) :
  RegExp.last_n_units_at s = Some (num, unit) ->
  num <> EmptyString
  /\ JSObject.all_digits num = true
  /\ exists s3, RegExp.unit_at s3 = Some unit.
Proof.
  unfold RegExp.last_n_units_at.
  destruct (RegExp.literal_ci "last" s); [|discriminate].
  destruct (RegExp.skip_white1 (JS.drop 4 s)) as [s1|]; [|discriminate].
  pose proof (take_digits_spec s1) as [Hdigits _].
  destruct (RegExp.take_digits s1) as [ds s2]. simpl in Hdigits.
  destruct (String.eqb ds EmptyString) eqn:Hne; [discriminate|].
  destruct (RegExp.skip_white1 s2) as [s3|]; [|discriminate].
  destruct (RegExp.unit_at s3) as [u|] eqn:Hu; [|discriminate].
  intros [= <- <-]. apply String.eqb_neq in Hne. eauto.
Qed.

(** The text [num unit plural] built from two captures is read back by the
    pattern of [parseDuration] as the same two captures. *)
Lemma n_units_readback (num unit plural s3 : string) :
  num <> EmptyString ->
  JSObject.all_digits num = true ->
  RegExp.unit_at s3 = Some unit ->
  RegExp.search RegExp.n_units_at (num ++ " " ++ unit ++ plural)
  = Some (num, unit).
Proof.
  intros Hne Hnum Hunit.
  destruct (unit_at_spec s3 unit Hunit) as (_ & (a & rest & -> & Hw & _) & Hback).
  apply search_here. unfold RegExp.n_units_at.
  change (num ++ " " ++ String a rest ++ plural)%string
    with (num ++ String " " (String a rest ++ plural))%string.
  rewrite take_digits_app by (assumption || reflexivity).
  apply String.eqb_neq in Hne. rewrite Hne.
  change (RegExp.skip_white (String " " (String a rest ++ plural)))
    with (RegExp.skip_white (String a (rest ++ plural))).
  cbn [RegExp.skip_white]. rewrite Hw.
  change (String a (rest ++ plural))%string
    with (String a rest ++ plural)%string.
  now rewrite Hback.
Qed.

Lemma extractTimeRange_spec (query : string) :
  exists num unit plural,
    extractTimeRange query = (num ++ " " ++ unit ++ plural)%string
    /\ num <> EmptyString
    /\ JSObject.all_digits num = true
    /\ In (toLowerCase unit) ["day"; "week"; "hour"; "month"]%string
    /\ (plural = EmptyString \/ plural = "s"%string)
    /\ RegExp.search RegExp.n_units_at (extractTimeRange query)
       = Some (num, unit).
Proof.
  unfold extractTimeRange.
  destruct (RegExp.search RegExp.last_n_units_at query) as [[num unit]|]
    eqn:Hmatch.
  - apply search_Some in Hmatch as (s' & Hat).
    apply last_n_units_at_spec in Hat as (Hne & Hnum & s3 & Hunit).
    exists num, unit, "s"%string.
    destruct (unit_at_spec s3 unit Hunit) as (Hin & _ & _).
    repeat split; auto. now apply n_units_readback with s3.
  - destruct (includes "today" query);
      [exists "1"%string, "day"%string, EmptyString;
       repeat split; simpl; auto; discriminate|].
    destruct (includes "yesterday" query);
      [exists "2"%string, "day"%string, "s"%string;
       repeat split; simpl; auto; discriminate|].
    destruct (includes "this week" query);
      [exists "7"%string, "day"%string, "s"%string;
       repeat split; simpl; auto; discriminate|].
    destruct (includes "this month" query);
      [exists "30"%string, "day"%string, "s"%string;
       repeat split; simpl; auto; discriminate|].
    exists "7"%string, "day"%string, "s"%string.
    repeat split; simpl; auto; discriminate.
Qed.

(** X17: The time range extracted from a query is always a run of digits, a
    space and one of the four unit words (in the letter case of the query),
    with or without a final [s]; no other text of the query enters it.
    Read again by the pattern of [parseDuration], it yields the same number
    and unit. *)
Theorem time_range_form (query : string) :
  exists num unit plural,
    extractTimeRange query = (num ++ " " ++ unit ++ plural)%string
    /\ num <> EmptyString
    /\ JSObject.all_digits num = true
    /\ In (toLowerCase unit) ["day"; "week"; "hour"; "month"]%string
    /\ (plural = EmptyString \/ plural = "s"%string)
    /\ RegExp.search RegExp.n_units_at (extractTimeRange query)
       = Some (num, unit).
Proof. exact (extractTimeRange_spec query). Qed.

(** X18: The window of the intent starts [N] units before the clock, where [N]
    and the unit are those of the time range: [parseDuration] never falls
    back to its default of seven days on a time range that the parser
    produced. The window ends at the second clock reading. *)
Theorem query_window (clockStart clockEnd : number) (query : string) :
  exists num unit,
    RegExp.search RegExp.n_units_at (extractTimeRange query) = Some (num, unit)
    /\ ((toLowerCase unit = "hour"%string
         /\ parseDuration (extractTimeRange query)
            = JS.parseInt num * 60 * 60 * 1000)
        \/ (toLowerCase unit = "day"%string
            /\ parseDuration (extractTimeRange query)
               = JS.parseInt num * 24 * 60 * 60 * 1000)
        \/ (toLowerCase unit = "week"%string
            /\ parseDuration (extractTimeRange query)
               = JS.parseInt num * 7 * 24 * 60 * 60 * 1000)
        \/ (toLowerCase unit = "month"%string
            /\ parseDuration (extractTimeRange query)
               = JS.parseInt num * 30 * 24 * 60 * 60 * 1000))
    /\ QueryIntent.timeRange_start
         (ParsedQuery.intent
            (parseNaturalLanguageQuery clockStart clockEnd query))
       = JSObject.TimeClip
           (clockStart - parseDuration (extractTimeRange query))
    /\ QueryIntent.timeRange_end
         (ParsedQuery.intent
            (parseNaturalLanguageQuery clockStart clockEnd query))
       = clockEnd.
Proof.
  destruct (extractTimeRange_spec query)
    as (num & unit & plural & _ & _ & _ & Hunit & _ & Hback).
  exists num, unit. split; [exact Hback|]. split.
  - unfold parseDuration. rewrite Hback.
    simpl in Hunit. destruct Hunit as [<-|[<-|[<-|[<-|[]]]]]; simpl; auto.
  - unfold parseNaturalLanguageQuery.
    now destruct (List.find _ QUERY_PATTERNS).
Qed.

Lemma starts_with_drop (p s : string) :
  JS.starts_with p s = true -> s = (p ++ JS.drop (String.length p) s)%string.
Proof.
  revert s. induction p as [|a p IH]; intros s Hs; [reflexivity|].
  destruct s as [|b s]; [discriminate|].
  cbn [JS.starts_with] in Hs. apply andb_prop in Hs as [Hab Hs].
  apply Ascii.eqb_eq in Hab. subst b.
  cbn [String.length JS.drop].
  change (String a p ++ JS.drop (String.length p) s)%string
    with (String a (p ++ JS.drop (String.length p) s)).
  now rewrite <- (IH s Hs).
Qed.

(** [s.replace(pat, by)] puts [by] in the place of the first occurrence of
    [pat] and leaves a string without [pat] as it is. *)
Lemma replace_spec (pat s : string) :
  (exists before after,
     s = (before ++ pat ++ after)%string
     /\ forall by_, JS.replace pat by_ s = (before ++ by_ ++ after)%string)
  \/ (forall by_, JS.replace pat by_ s = s).
Proof.
  induction s as [|c s IH].
  - cbn [JS.replace]. destruct (JS.starts_with pat EmptyString) eqn:Hs.
    + left. exists EmptyString, (JS.drop (String.length pat) EmptyString).
      split; [now apply starts_with_drop|reflexivity].
    + right. reflexivity.
  - cbn [JS.replace]. destruct (JS.starts_with pat (String c s)) eqn:Hs.
    + left. exists EmptyString, (JS.drop (String.length pat) (String c s)).
      split; [now apply starts_with_drop|reflexivity].
    + destruct IH as [(before & after & Heq & Hrep)|Hsame].
      * left. exists (String c before), after.
        split; [now rewrite Heq|]. intros by_. now rewrite Hrep.
      * right. intros by_. now rewrite Hsame.
Qed.

(** X19: The SQL of a parsed query is one of seven fixed statements with the
    time range in the place of its time-range slot (the [{timeRange}]
    marker of a pattern's template, or the slot of the default statement);
    nothing else in it depends on the query. *)
Theorem sql_is_template_with_time_range
    (clockStart clockEnd : number) (query : string) :
  exists before after,
    ParsedQuery.sql (parseNaturalLanguageQuery clockStart clockEnd query)
    = (before ++ extractTimeRange query ++ after)%string
    /\ ((exists pattern,
           In pattern QUERY_PATTERNS
           /\ QueryPattern.sqlTemplate pattern
              = (before ++ "{timeRange}" ++ after)%string)
        \/ (before = defaultSqlBefore /\ after = defaultSqlAfter)).
Proof.
  unfold parseNaturalLanguageQuery.
  destruct (List.find (fun p => QueryPattern.pattern p query) QUERY_PATTERNS)
    as [pattern|] eqn:Hfind.
  - apply find_some in Hfind as [Hin _]. cbn [ParsedQuery.sql].
    destruct (replace_spec "{timeRange}" (QueryPattern.sqlTemplate pattern))
      as [(before & after & Heq & Hrep)|Hsame].
    + exists before, after. split; [apply Hrep|]. left. eauto.
    + exfalso. specialize (Hsame EmptyString).
      apply (f_equal String.length) in Hsame.
      unfold QUERY_PATTERNS in Hin. simpl in Hin.
      destruct Hin as [<-|[<-|[<-|[<-|[<-|[<-|[]]]]]]];
        vm_compute in Hsame; discriminate.
  - exists defaultSqlBefore, defaultSqlAfter. cbn [ParsedQuery.sql].
    split; [reflexivity|]. now right.
Qed.

(** ** Severity *)

Lemma ltb_leb_trans (x y z : number) :
  (x <? y) = true -> (y <=? z) = true -> (x <? z) = true.
Proof.
  rewrite !ltb_spec, leb_spec. unfold SFltb, SFleb.
  destruct (Prim2SF x) as [[]|[]| |[] ? ?];
    destruct (Prim2SF y) as [[]|[]| |[] ? ?];
    destruct (Prim2SF z) as [[]|[]| |[] ? ?];
    simpl; try discriminate; try reflexivity;
    repeat match goal with
      | |- context [Pos.compare_cont Eq ?a ?b] =>
          change (Pos.compare_cont Eq a b) with (Pos.compare a b);
          destruct (Pos.compare_spec a b)
      | |- context [Z.compare ?a ?b] => destruct (Z.compare_spec a b)
      end;
    simpl; intros; try discriminate; try reflexivity; try lia.
Qed.

(** X20: The severity is monotone in the variance percent: a variance that
    is at least as large never gets a lower severity. (A NaN variance
    compares false with everything and is outside the statement; it gets
    [low].) *)
Theorem severity_monotone (v1 v2 : number) :
  (v1 <=? v2) = true ->
  (severityRank (getSeverity v1) <= severityRank (getSeverity v2))%nat.
Proof.
  intros Hle. unfold getSeverity.
  destruct (20 <? v1) eqn:H20.
  { now rewrite (ltb_leb_trans _ _ _ H20 Hle). }
  destruct (10 <? v1) eqn:H10.
  { rewrite (ltb_leb_trans _ _ _ H10 Hle).
    destruct (20 <? v2); simpl; lia. }
  destruct (5 <? v1) eqn:H5.
  { rewrite (ltb_leb_trans _ _ _ H5 Hle).
    destruct (20 <? v2), (10 <? v2); simpl; lia. }
  simpl. lia.
Qed.

Lemma severity_monotone_witness :
  (severityRank (getSeverity 7%float)
   <= severityRank (getSeverity 20%float))%nat.
Proof.
  apply (severity_monotone 7 20). vm_compute. reflexivity.
Defined.

(** The thresholds are exclusive: exactly 20, 10 and 5 stay in the lower
    bucket. *)
Example severity_thresholds :
  List.map getSeverity [21; 20; 15; 10; 7; 5; 3; nan]
  = [critical; high; high; medium; medium; low; low; low].
Proof. vm_compute. reflexivity. Qed.

(** ** Sample runs *)

Example predictions_of_rising_trend :
  generatePredictions Inputs.power 1730000000000 Inputs.risingTrend []
  = Returns Inputs.risingPredictions.
Proof. vm_compute. reflexivity. Qed.

Example inherited_station_id_throws :
  generatePredictions Inputs.power 1730000000000
    (Inputs.trendOf "constructor" [70; 71]) []
  = ThrowsTypeError.
Proof. vm_compute. reflexivity. Qed.

(** Index-like station ids come first in [Object.entries], in numeric
    order. *)
Example entries_order :
  List.map fst
    (JSObject.entries [("ST003", 1); ("10", 2); ("ST001", 3); ("9", 4);
                       ("007", 5)]%string)
  = ["9"; "10"; "ST003"; "ST001"; "007"]%string.
Proof. vm_compute. reflexivity. Qed.

Example query_last_three_weeks :
  let r :=
    parseNaturalLanguageQuery 1730000000000 1730000000250
      "Which station hurt output in the last 3 Weeks?" in
  extractTimeRange "Which station hurt output in the last 3 Weeks?"
  = "3 Weeks"%string
  /\ QueryIntent.action (ParsedQuery.intent r) = act_find
  /\ QueryIntent.metrics (ParsedQuery.intent r) = ["throughput"]%string
  /\ QueryIntent.timeRange_start (ParsedQuery.intent r) = 1728185600000
  /\ ParsedQuery.explanation r
     = "Finding stations with notable throughput patterns over the 3 Weeks"%string.
Proof. repeat split; vm_compute; reflexivity. Qed.

(** The first pattern that matches wins, the time range of a
    [last N units] phrase wins over [today], and a query that matches
    nothing gets the default intent over seven days. *)
Example query_dispatch :
  List.map
    (fun q =>
       (QueryIntent.action
          (ParsedQuery.intent (parseNaturalLanguageQuery 0 0 q)),
        extractTimeRange q))
    ["show the defect trend today in the LAST  12 hours";
     "compare night and day shifts today";
     "idle time yesterday"; "hello";
     "last 5days"]%string
  = [(act_trend, "12 hours"); (act_compare, "1 day"); (act_find, "2 days");
     (act_find, "7 days"); (act_find, "7 days")]%string.
Proof. vm_compute. reflexivity. Qed.
